(** * The activity directory client (src/static/app.js)

    A shallow embedding of the browser script: the page it edits is an
    explicit state, the script's statements are actions of a state and
    exception monad, and the server is a function the requests are answered
    by.  Line numbers refer to src/static/app.js. *)

From Stdlib Require Import String Ascii List ZArith Lia Bool DecimalString.
Import ListNotations.
#[local] Set Warnings "-register-all".
Local Open Scope string_scope.

(** ** JavaScript values of the shapes the server sends *)

Module JS.

(** A property of a JSON object: missing (reading it gives [undefined]),
    [null], or a value of the type the interface declares for it.  Values
    of another type than the declared one are outside this model. *)
Inductive Field (A : Type) : Type :=
| Absent
| Null
| Present (a : A).
Arguments Absent {A}.
Arguments Null {A}.
Arguments Present {A} a.

(** Numbers: the integers, which doubles carry exactly below 2^53, and
    NaN.  Fractions and infinities do not arise from integer operands. *)
Inductive Number : Type :=
| NaN
| Int (z : Z).

(** What a [throw] carries.  [fetch] rejects with [NetworkFailure],
    [response.json()] with [SyntaxError]; reading a property of
    [undefined] or [null] raises [TypeError]. *)
Inductive Exception : Type :=
| NetworkFailure
| SyntaxError
| TypeError.

Inductive Completion (A : Type) : Type :=
| Normal (a : A)
| Throw (e : Exception).
Arguments Normal {A} a.
Arguments Throw {A} e.

(** ToNumber on a property declared numeric: undefined is NaN, null is 0. *)
Definition ToNumber (v : Field Z) : Number :=
  match v with
  | Absent => NaN
  | Null => Int 0
  | Present z => Int z
  end.

(** Number::toString, on integers the decimal digits with a leading minus. *)
Definition Number_toString (n : Number) : string :=
  match n with
  | NaN => "NaN"
  | Int z => NilZero.string_of_int (Z.to_int z)
  end.

(** ToString as a template literal applies it to a string property. *)
Definition ToString (v : Field string) : string :=
  match v with
  | Absent => "undefined"
  | Null => "null"
  | Present s => s
  end.

(** ToBoolean on a string property: the empty string is falsy, as are
    undefined and null. *)
Definition ToBoolean (v : Field string) : bool :=
  match v with
  | Present (String _ _) => true
  | _ => false
  end.

(** [v || fallback] *)
Definition or_else (v : Field string) (fallback : string) : Field string :=
  if ToBoolean v then v else Present fallback.

(** [a - b] where the right operand is an array length. *)
Definition minus (a : Number) (len : nat) : Number :=
  match a with
  | NaN => NaN
  | Int z => Int (z - Z.of_nat len)
  end.

(** [p.length] on a property declared to be an array: reading [length] of
    undefined or null throws. *)
Definition length_of {A} (p : Field (list A)) : Completion nat :=
  match p with
  | Present l => Normal (List.length l)
  | _ => Throw TypeError
  end.

(** encodeURIComponent, on the UTF-8 bytes a string is held as: letters,
    digits and [- _ . ! ~ * ' ( )] stay, every other byte becomes %XX.  (It
    throws on a lone surrogate only, which has no UTF-8 form.) *)
Definition unescaped (c : ascii) : bool :=
  let n := nat_of_ascii c in
  ((65 <=? n)%nat && (n <=? 90)%nat) || ((97 <=? n)%nat && (n <=? 122)%nat)
  || ((48 <=? n)%nat && (n <=? 57)%nat)
  || existsb (Ascii.eqb c) ["-"; "_"; "."; "!"; "~"; "*"; "'"; "("; ")"]%char.

Definition hex_digit (n : nat) : ascii :=
  nth n ["0"; "1"; "2"; "3"; "4"; "5"; "6"; "7"; "8"; "9";
         "A"; "B"; "C"; "D"; "E"; "F"]%char "0"%char.

Fixpoint encodeURIComponent (s : string) : string :=
  match s with
  | EmptyString => EmptyString
  | String c rest =>
      if unescaped c then String c (encodeURIComponent rest)
      else
        let n := nat_of_ascii c in
        String "%" (String (hex_digit (n / 16)) (String (hex_digit (n mod 16))
                                                  (encodeURIComponent rest)))
  end.

End JS.
Import JS.

(** ** The server's interface *)

(** One activity as [GET /activities] describes it, a JSON object. *)
Record Details : Type := {
  description : Field string;
  schedule : Field string;
  max_participants : Field Z;
  participants : Field (list string)
}.

(** The parsed collection, as [Object.entries] enumerates it: the object's
    keys with their values, in enumeration order. *)
Definition Activities : Type := list (string * Details).

(** The JSON object both mutating endpoints answer with: [message] on
    success, [detail] on rejection. *)
Record Reply : Type := {
  message : Field string;
  detail : Field string
}.

Record Request : Type := {
  method : string;
  url : string
}.

(** A response: its [ok] flag (status 200..299) and its body, [None] when
    the body is not JSON and [response.json()] rejects. *)
Record Response (B : Type) : Type := {
  ok : bool;
  body : option B
}.
Arguments ok {B} r.
Arguments body {B} r.

(** What becomes of a request: the promise of [fetch] rejects (the network
    failed) or resolves to a response, whatever its status. *)
Inductive Outcome (B : Type) : Type :=
| Rejected
| Resolved (response : Response B).
Arguments Rejected {B}.
Arguments Resolved {B} response.

(** The server, an external collaborator: how it answers the request that is
    sent when [sent] requests have gone out before. *)
Record Network : Type := {
  list_endpoint : nat -> Request -> Outcome Activities;
  action_endpoint : nat -> Request -> Outcome Reply
}.

(** ** The document *)

Module DOM.

(** The click listener of lines 66-103 closes over the activity's name and
    the participant. *)
Inductive Listener : Type :=
| UnregisterClick (name participant : string).

(** Nodes the script builds.  [Markup] stands for the children an
    [innerHTML] string parses to; the parser is the browser's, so the
    string is kept as it was assigned. *)
Inductive Node : Type :=
| Text (data : string)
| Markup (html : string)
| Element (tagName className title value : string)
          (onclick : option Listener) (childNodes : list Node).

Definition createElement (tag : string) : Node :=
  Element tag "" "" "" None [].

Definition set_className (c : string) (n : Node) : Node :=
  match n with
  | Element t _ ti v l k => Element t c ti v l k
  | _ => n
  end.

Definition set_title (ti : string) (n : Node) : Node :=
  match n with
  | Element t c _ v l k => Element t c ti v l k
  | _ => n
  end.

Definition set_value (v : string) (n : Node) : Node :=
  match n with
  | Element t c ti _ l k => Element t c ti v l k
  | _ => n
  end.

Definition addEventListener_click (l : Listener) (n : Node) : Node :=
  match n with
  | Element t c ti v _ k => Element t c ti v (Some l) k
  | _ => n
  end.

Definition appendChild (child : Node) (n : Node) : Node :=
  match n with
  | Element t c ti v l k => Element t c ti v l (k ++ [child])
  | _ => n
  end.

(** The children a string leaves when assigned to [textContent]: a single
    text node, none for the empty string. *)
Definition text_nodes (s : string) : list Node :=
  match s with
  | EmptyString => []
  | _ => [Text s]
  end.

(** The children a string leaves when assigned to [innerHTML]. *)
Definition parsed_nodes (html : string) : list Node :=
  match html with
  | EmptyString => []
  | _ => [Markup html]
  end.

Definition set_textContent (s : string) (n : Node) : Node :=
  match n with
  | Element t c ti v l _ => Element t c ti v l (text_nodes s)
  | _ => n
  end.

Definition set_innerHTML (html : string) (n : Node) : Node :=
  match n with
  | Element t c ti v l _ => Element t c ti v l (parsed_nodes html)
  | _ => n
  end.

Definition children (n : Node) : list Node :=
  match n with
  | Element _ _ _ _ _ k => k
  | _ => []
  end.

Definition is_element (tag cls : string) (n : Node) : bool :=
  match n with
  | Element t c _ _ _ _ => String.eqb t tag && String.eqb c cls
  | _ => false
  end.

(** The number of elements with the given tag and class in a subtree. *)
Fixpoint count (tag cls : string) (n : Node) : nat :=
  match n with
  | Element _ _ _ _ _ k =>
      (if is_element tag cls n then 1 else 0)
      + list_sum (map (count tag cls) k)
  | _ => 0
  end.

(** The DOM declares [attribute DOMString? textContent].  For a nullable
    type Web IDL converts both [undefined] and [null] to the null value, and
    the setter of [textContent] acts on null as on the empty string; any
    other value is converted with ToString. *)
Definition nullable_DOMString (v : Field string) : option string :=
  match v with
  | Present s => Some s
  | _ => None
  end.

Definition textContent_value (v : option string) : string :=
  match v with
  | Some s => s
  | None => ""
  end.

(** [classList.remove(token)] and [classList.add(token)] on a token list. *)
Definition classList_remove (token : string) (cl : list string) : list string :=
  filter (fun t => negb (String.eqb t token)) cl.

Definition classList_add (token : string) (cl : list string) : list string :=
  if existsb (String.eqb token) cl then cl else cl ++ [token].

End DOM.
Import DOM.

(** ** The page the script runs in *)

(** The one callback the script hands to [setTimeout] (lines 94-96 and
    163-165): [messageDiv.classList.add("hidden")]. *)
Inductive TimerCallback : Type :=
| HideMessage.

(** What the script reads and writes: the children of [#activities-list] and
    of the [#activity] select, the text and class tokens of [#message], the
    [#email] field with the default its markup gives it, the timers that are
    pending, the requests sent so far, the [fetchActivities] calls that were
    started without [await] and are still in flight, and the error console. *)
Record State : Type := {
  activitiesList : list Node;
  activitySelect : list Node;
  message_textContent : string;
  message_classList : list string;
  email_value : string;
  email_defaultValue : string;
  timers : list (nat * TimerCallback);
  sent : list Request;
  in_flight : list (Outcome Activities);
  console : list (string * Exception)
}.

Definition with_activitiesList (v : list Node) (st : State) : State :=
  {| activitiesList := v; activitySelect := activitySelect st;
     message_textContent := message_textContent st;
     message_classList := message_classList st;
     email_value := email_value st; email_defaultValue := email_defaultValue st;
     timers := timers st; sent := sent st; in_flight := in_flight st;
     console := console st |}.

Definition with_activitySelect (v : list Node) (st : State) : State :=
  {| activitiesList := activitiesList st; activitySelect := v;
     message_textContent := message_textContent st;
     message_classList := message_classList st;
     email_value := email_value st; email_defaultValue := email_defaultValue st;
     timers := timers st; sent := sent st; in_flight := in_flight st;
     console := console st |}.

Definition with_message_textContent (v : string) (st : State) : State :=
  {| activitiesList := activitiesList st; activitySelect := activitySelect st;
     message_textContent := v;
     message_classList := message_classList st;
     email_value := email_value st; email_defaultValue := email_defaultValue st;
     timers := timers st; sent := sent st; in_flight := in_flight st;
     console := console st |}.

Definition with_message_classList (v : list string) (st : State) : State :=
  {| activitiesList := activitiesList st; activitySelect := activitySelect st;
     message_textContent := message_textContent st;
     message_classList := v;
     email_value := email_value st; email_defaultValue := email_defaultValue st;
     timers := timers st; sent := sent st; in_flight := in_flight st;
     console := console st |}.

Definition with_email_value (v : string) (st : State) : State :=
  {| activitiesList := activitiesList st; activitySelect := activitySelect st;
     message_textContent := message_textContent st;
     message_classList := message_classList st;
     email_value := v; email_defaultValue := email_defaultValue st;
     timers := timers st; sent := sent st; in_flight := in_flight st;
     console := console st |}.

Definition with_timers (v : list (nat * TimerCallback)) (st : State) : State :=
  {| activitiesList := activitiesList st; activitySelect := activitySelect st;
     message_textContent := message_textContent st;
     message_classList := message_classList st;
     email_value := email_value st; email_defaultValue := email_defaultValue st;
     timers := v; sent := sent st; in_flight := in_flight st;
     console := console st |}.

Definition with_sent (v : list Request) (st : State) : State :=
  {| activitiesList := activitiesList st; activitySelect := activitySelect st;
     message_textContent := message_textContent st;
     message_classList := message_classList st;
     email_value := email_value st; email_defaultValue := email_defaultValue st;
     timers := timers st; sent := v; in_flight := in_flight st;
     console := console st |}.

Definition with_in_flight (v : list (Outcome Activities)) (st : State) : State :=
  {| activitiesList := activitiesList st; activitySelect := activitySelect st;
     message_textContent := message_textContent st;
     message_classList := message_classList st;
     email_value := email_value st; email_defaultValue := email_defaultValue st;
     timers := timers st; sent := sent st; in_flight := v;
     console := console st |}.

Definition with_console (v : list (string * Exception)) (st : State) : State :=
  {| activitiesList := activitiesList st; activitySelect := activitySelect st;
     message_textContent := message_textContent st;
     message_classList := message_classList st;
     email_value := email_value st; email_defaultValue := email_defaultValue st;
     timers := timers st; sent := sent st; in_flight := in_flight st;
     console := v |}.

(** The message box shows when its class list lacks [hidden], the class the
    stylesheet hides. *)
Definition message_visible (st : State) : bool :=
  negb (existsb (String.eqb "hidden") (message_classList st)).

(** ** Statements: state passing with exceptions

    A statement runs on a state and completes normally or throws; what it
    did to the page before it threw stays done. *)

Definition M (A : Type) : Type := State -> Completion A * State.

Definition ret {A} (a : A) : M A := fun st => (Normal a, st).

Definition bind {A B} (m : M A) (k : A -> M B) : M B :=
  fun st =>
    match m st with
    | (Normal a, st') => k a st'
    | (Throw e, st') => (Throw e, st')
    end.

Definition throw {A} (e : Exception) : M A := fun st => (Throw e, st).

Definition try_catch {A} (block : M A) (handler : Exception -> M A) : M A :=
  fun st =>
    match block st with
    | (Normal a, st') => (Normal a, st')
    | (Throw e, st') => handler e st'
    end.

Definition lift {A} (c : Completion A) : M A := fun st => (c, st).

Definition modify (f : State -> State) : M unit := fun st => (Normal tt, f st).

Definition gets {A} (f : State -> A) : M A := fun st => (Normal (f st), st).

Declare Scope stmt_scope.
Delimit Scope stmt_scope with stmt.
Notation "x <- m ;; k" := (bind m (fun x => k))
  (at level 61, m at next level, right associativity) : stmt_scope.
Notation "m ;; k" := (bind m (fun _ => k))
  (at level 61, right associativity) : stmt_scope.
Local Open Scope stmt_scope.

Fixpoint forEach {A} (l : list A) (callback : A -> M unit) : M unit :=
  match l with
  | [] => ret tt
  | a :: rest => callback a ;; forEach rest callback
  end.

Definition exec {A} (m : M A) (st : State) : State := snd (m st).
Definition completion {A} (m : M A) (st : State) : Completion A := fst (m st).

(** ** Operations on the page and the network *)

(** [fetch(url, {method})] up to its promise: the request goes out, and the
    server's answer to it is fixed. *)
Definition send {B} (endpoint : nat -> Request -> Outcome B) (req : Request)
  : M (Outcome B) :=
  fun st =>
    (Normal (endpoint (List.length (sent st)) req), with_sent (sent st ++ [req]) st).

(** [await] on the promise of [fetch]. *)
Definition await {B} (o : Outcome B) : M (Response B) :=
  match o with
  | Rejected => throw NetworkFailure
  | Resolved response => ret response
  end.

(** [await fetch(url, {method})] *)
Definition fetch {B} (endpoint : nat -> Request -> Outcome B) (req : Request)
  : M (Response B) :=
  o <- send endpoint req ;; await o.

(** [await response.json()] *)
Definition json {B} (response : Response B) : M B :=
  match body response with
  | Some b => ret b
  | None => throw SyntaxError
  end.

Definition activitiesList_set_innerHTML (html : string) : M unit :=
  modify (with_activitiesList (parsed_nodes html)).

Definition activitiesList_appendChild (child : Node) : M unit :=
  modify (fun st => with_activitiesList (activitiesList st ++ [child]) st).

Definition activitySelect_set_innerHTML (html : string) : M unit :=
  modify (with_activitySelect (parsed_nodes html)).

Definition activitySelect_appendChild (child : Node) : M unit :=
  modify (fun st => with_activitySelect (activitySelect st ++ [child]) st).

(** [messageDiv.textContent = v] *)
Definition messageDiv_set_textContent (v : Field string) : M unit :=
  modify (with_message_textContent (textContent_value (nullable_DOMString v))).

(** [messageDiv.className = c], for a class name of one token: the class
    list becomes that token alone. *)
Definition messageDiv_set_className (c : string) : M unit :=
  modify (with_message_classList [c]).

Definition messageDiv_classList_remove (token : string) : M unit :=
  modify (fun st => with_message_classList (classList_remove token (message_classList st)) st).

Definition messageDiv_classList_add (token : string) : M unit :=
  modify (fun st => with_message_classList (classList_add token (message_classList st)) st).

Definition setTimeout (callback : TimerCallback) (delay : nat) : M unit :=
  modify (fun st => with_timers (timers st ++ [(delay, callback)]) st).

Definition console_error (label : string) (error : Exception) : M unit :=
  modify (fun st => with_console (console st ++ [(label, error)]) st).

(** [signupForm.reset()]: the email field goes back to its default value.
    (The select goes back to its default option; which option is selected is
    not part of the state, see [signupForm_submit].) *)
Definition signupForm_reset : M unit :=
  modify (fun st => with_email_value (email_defaultValue st) st).

(** ** fetchActivities (lines 8-129) *)

(** Lines 18-20. *)
Definition defaultOption : Node :=
  let defaultOption := createElement "option" in
  let defaultOption := set_value "" defaultOption in
  set_textContent "-- Select an activity --" defaultOption.

(** Line 28: [details.max_participants - details.participants.length]. *)
Definition spotsLeft (details : Details) : Completion Number :=
  match length_of (participants details) with
  | Normal len => Normal (minus (ToNumber (max_participants details)) len)
  | Throw e => Throw e
  end.

Definition newline : string := String (ascii_of_nat 10) EmptyString.

(** Lines 31-36: the template literal, line breaks and indentation included. *)
Definition basic_info (name : string) (details : Details) (spots : Number) : string :=
  newline ++
  "          <h4>" ++ name ++ "</h4>" ++ newline ++
  "          <p>" ++ ToString (description details) ++ "</p>" ++ newline ++
  "          <p><strong>Schedule:</strong> " ++ ToString (schedule details) ++ "</p>" ++ newline ++
  "          <p><strong>Availability:</strong> " ++ Number_toString spots ++ " spots left</p>" ++ newline ++
  "        ".

(** Lines 61-64 and 66: the delete button of one participant. *)
Definition deleteBtn (name participant : string) : Node :=
  let deleteBtn := createElement "button" in
  let deleteBtn := set_className "delete-participant-btn" deleteBtn in
  let deleteBtn := set_innerHTML "✕" deleteBtn in
  let deleteBtn := set_title ("Unregister " ++ participant) deleteBtn in
  addEventListener_click (UnregisterClick name participant) deleteBtn.

(** Lines 48-106: the list item of one participant. *)
Definition participantItem (name participant : string) : Node :=
  let li := createElement "li" in
  let li := set_className "participant-item" li in
  let participantContainer := createElement "div" in
  let participantContainer := set_className "participant-container" participantContainer in
  let participantName := createElement "span" in
  let participantName := set_textContent participant participantName in
  let participantContainer := appendChild participantName participantContainer in
  let participantContainer := appendChild (deleteBtn name participant) participantContainer in
  appendChild participantContainer li.

(** Lines 110-112. *)
Definition noParticipantsItem : Node :=
  let li := createElement "li" in
  let li := set_className "no-participants" li in
  set_textContent "No participants yet" li.

(** Line 46: [Array.isArray(p) && p.length > 0]. *)
Definition is_nonempty_array {A} (p : Field (list A)) : bool :=
  match p with
  | Present (_ :: _) => true
  | _ => false
  end.

(** Lines 43-114: the bulleted list of an activity's participants. *)
Definition participantsList (name : string) (details : Details) : Node :=
  let participantsList := createElement "ul" in
  let participantsList := set_className "participants-list" participantsList in
  if is_nonempty_array (participants details) then
    match participants details with
    | Present ps =>
        fold_left (fun ul participant => appendChild (participantItem name participant) ul)
                  ps participantsList
    | _ => participantsList
    end
  else appendChild noParticipantsItem participantsList.

(** Lines 25-116: the card of one activity, or the exception line 28 throws. *)
Definition activityCard (name : string) (details : Details) : Completion Node :=
  let activityCard := createElement "div" in
  let activityCard := set_className "activity-card" activityCard in
  match spotsLeft details with
  | Throw e => Throw e
  | Normal spots =>
      let activityCard := set_innerHTML (basic_info name details spots) activityCard in
      let participantsHeader := createElement "p" in
      let participantsHeader := set_innerHTML "<strong>Participants:</strong>" participantsHeader in
      let activityCard := appendChild participantsHeader activityCard in
      Normal (appendChild (participantsList name details) activityCard)
  end.

(** Lines 120-122. *)
Definition activityOption (name : string) : Node :=
  let option := createElement "option" in
  let option := set_value name option in
  set_textContent name option.

Definition activities_request : Request :=
  {| method := "GET"; url := "/activities" |}.

(** Lines 24-124: the callback [forEach] runs on each entry.  The card is
    built off the page and attached on line 117, the option on line 123. *)
Definition render_entry (entry : string * Details) : M unit :=
  let '(name, details) := entry in
  card <- lift (activityCard name details) ;;
  activitiesList_appendChild card ;;
  activitySelect_appendChild (activityOption name).

(** The rest of [fetchActivities] once the promise of line 10 has settled. *)
Definition fetchActivities_resume (o : Outcome Activities) : M unit :=
  try_catch
    (response <- await o ;;
     activities <- json response ;;
     activitiesList_set_innerHTML "" ;;
     activitySelect_set_innerHTML "" ;;
     activitySelect_appendChild defaultOption ;;
     forEach activities render_entry)
    (fun error =>
       activitiesList_set_innerHTML "<p>Failed to load activities. Please try again later.</p>" ;;
       console_error "Error fetching activities:" error).

(** ** The listeners, on a network

    A listener is suspended at each [await] and goes on when the promise
    settles.  Here a listener runs in one piece: no other event is handled
    while it waits.  The one call that is not awaited (line 85) is split in
    two: the request goes out inside the listener, and the rest of the call
    runs as an event of its own, [load_arrives]. *)

Section Client.

Variable net : Network.

(** [await fetchActivities()]: the caller goes on when the list is drawn. *)
Definition fetchActivities : M unit :=
  o <- send (list_endpoint net) activities_request ;;
  fetchActivities_resume o.

(** [fetchActivities()] without [await]: the request goes out, the caller
    goes on, and the rest runs when the response arrives. *)
Definition fetchActivities_detached : M unit :=
  o <- send (list_endpoint net) activities_request ;;
  modify (fun st => with_in_flight (in_flight st ++ [o]) st).

(** ** The click listener of a delete button (lines 66-103)

    [preventDefault] and [stopPropagation] (lines 67-68) touch nothing the
    state holds. *)

Definition unregister_request (name participant : string) : Request :=
  {| method := "DELETE";
     url := "/activities/" ++ encodeURIComponent name
            ++ "/unregister?email=" ++ encodeURIComponent participant |}.

Definition deleteBtn_click (name participant : string) : M unit :=
  try_catch
    (response <- fetch (action_endpoint net) (unregister_request name participant) ;;
     result <- json response ;;
     (if ok response then
        messageDiv_set_textContent (message result) ;;
        messageDiv_set_className "success" ;;
        fetchActivities_detached
      else
        messageDiv_set_textContent (or_else (detail result) "Failed to unregister") ;;
        messageDiv_set_className "error") ;;
     messageDiv_classList_remove "hidden" ;;
     setTimeout HideMessage 5000)
    (fun error =>
       messageDiv_set_textContent (Present "Failed to unregister. Please try again.") ;;
       messageDiv_set_className "error" ;;
       messageDiv_classList_remove "hidden" ;;
       console_error "Error unregistering:" error).

(** ** The submit listener of the signup form (lines 132-172)

    [activity] is the value of the select when the form is submitted
    (line 136); the email is read from the field (line 135). *)

Definition signup_request (activity email : string) : Request :=
  {| method := "POST";
     url := "/activities/" ++ encodeURIComponent activity
            ++ "/signup?email=" ++ encodeURIComponent email |}.

Definition signupForm_submit (activity : string) : M unit :=
  email <- gets email_value ;;
  try_catch
    (response <- fetch (action_endpoint net) (signup_request activity email) ;;
     result <- json response ;;
     (if ok response then
        messageDiv_set_textContent (message result) ;;
        messageDiv_set_className "success" ;;
        signupForm_reset ;;
        fetchActivities
      else
        messageDiv_set_textContent (or_else (detail result) "An error occurred") ;;
        messageDiv_set_className "error") ;;
     messageDiv_classList_remove "hidden" ;;
     setTimeout HideMessage 5000)
    (fun error =>
       messageDiv_set_textContent (Present "Failed to sign up. Please try again.") ;;
       messageDiv_set_className "error" ;;
       messageDiv_classList_remove "hidden" ;;
       console_error "Error signing up:" error).

(** ** The event loop *)

(** The [i]-th pending load's response arrives and its [fetchActivities]
    goes on; responses may arrive in any order. *)
Definition load_arrives (i : nat) : M unit :=
  pending <- gets in_flight ;;
  match nth_error pending i with
  | Some o =>
      modify (with_in_flight (firstn i pending ++ skipn (S i) pending)) ;;
      fetchActivities_resume o
  | None => ret tt
  end.

Definition run_callback (callback : TimerCallback) : M unit :=
  match callback with
  | HideMessage => messageDiv_classList_add "hidden"
  end.

(** The [i]-th pending timer fires. *)
Definition timer_fires (i : nat) : M unit :=
  pending <- gets timers ;;
  match nth_error pending i with
  | Some (_, callback) =>
      modify (with_timers (firstn i pending ++ skipn (S i) pending)) ;;
      run_callback callback
  | None => ret tt
  end.

Inductive Event : Type :=
| DOMContentLoaded
| Submit (activity : string)
| Click (listener : Listener)
| Input (email : string)
| LoadArrives (i : nat)
| TimerFires (i : nat).

(** Line 175 runs [fetchActivities()] once the document is loaded; the
    listeners run on their events; the user edits the email field. *)
Definition handle (ev : Event) : M unit :=
  match ev with
  | DOMContentLoaded => fetchActivities_detached
  | Submit activity => signupForm_submit activity
  | Click (UnregisterClick name participant) => deleteBtn_click name participant
  | Input email => modify (with_email_value email)
  | LoadArrives i => load_arrives i
  | TimerFires i => timer_fires i
  end.

Definition run (evs : list Event) : M unit := forEach evs handle.

End Client.

(** ** What the claims are stated with *)

(** An activity that has its participants array, as the data model says. *)
Definition has_participants (entry : string * Details) : Prop :=
  exists ps, participants (snd entry) = Present ps.

(** The card of an entry is the card the script builds for it. *)
Definition card_of (entry : string * Details) (card : Node) : Prop :=
  activityCard (fst entry) (snd entry) = Normal card.

(** A request counts as completed when a response arrived, its status was
    2xx and its body parsed; everything else is a failure: the network
    failed, the body did not parse, or the status was not 2xx. *)
Definition completed {B} (o : Outcome B) : bool :=
  match o with
  | Resolved {| ok := true; body := Some _ |} => true
  | _ => false
  end.

(** The transport failed: no response, or a body that is not JSON. *)
Definition transport_failed {B} (o : Outcome B) : bool :=
  match o with
  | Rejected => true
  | Resolved {| body := None |} => true
  | _ => false
  end.

Definition failure_notice : string :=
  "<p>Failed to load activities. Please try again later.</p>".

(** The two actions that change the server's data, with the request each
    sends from a page, the listener that runs it, and the two error texts
    its listener holds: the fallback for a rejection without detail, and the
    text shown when the listener catches an exception. *)
Inductive Action : Type :=
| Signup (activity : string)
| Unregister (name participant : string).

Definition request_of (st : State) (a : Action) : Request :=
  match a with
  | Signup activity => signup_request activity (email_value st)
  | Unregister name participant => unregister_request name participant
  end.

Definition listener_of (net : Network) (a : Action) : M unit :=
  match a with
  | Signup activity => handle net (Submit activity)
  | Unregister name participant => handle net (Click (UnregisterClick name participant))
  end.

Definition fallback_of (a : Action) : string :=
  match a with
  | Signup _ => "An error occurred"
  | Unregister _ _ => "Failed to unregister"
  end.

Definition caught_of (a : Action) : string :=
  match a with
  | Signup _ => "Failed to sign up. Please try again."
  | Unregister _ _ => "Failed to unregister. Please try again."
  end.

(** The answer an action gets from the server on a page. *)
Definition answer (net : Network) (st : State) (a : Action) : Outcome Reply :=
  action_endpoint net (List.length (sent st)) (request_of st a).

(** The answer to the reload that follows an action. *)
Definition reload_answer (net : Network) (st : State) : Outcome Activities :=
  list_endpoint net (S (List.length (sent st))) activities_request.

(** The list and the select of [st'] are what [fetchActivities] draws from
    the response [o] on the page [st]. *)
Definition drawn_from (o : Outcome Activities) (st st' : State) : Prop :=
  activitiesList st' = activitiesList (exec (fetchActivities_resume o) st)
  /\ activitySelect st' = activitySelect (exec (fetchActivities_resume o) st).

(** ** A sample page and sample servers *)

(** The page before the first load: the list holds the markup's loading
    note, the message box is hidden, the user has typed an address. *)
Definition sample_page : State :=
  {| activitiesList := [Markup "<p>Loading activities...</p>"];
     activitySelect := [defaultOption];
     message_textContent := "";
     message_classList := ["hidden"];
     email_value := "a@x.com";
     email_defaultValue := "";
     timers := [];
     sent := [];
     in_flight := [];
     console := [] |}.

Definition chess_club : Details :=
  {| description := Present "Learn strategies and compete";
     schedule := Present "Fridays";
     max_participants := Present 10%Z;
     participants := Present ["a@x.com"] |}.

Definition art_club : Details :=
  {| description := Present "Paint and draw";
     schedule := Present "Mondays";
     max_participants := Present 1%Z;
     participants := Present [] |}.


Definition directory : Activities :=
  [("Chess Club", chess_club); ("Art Club", art_club)].

Definition serves (reply : Outcome Reply) : Network :=
  {| list_endpoint := fun _ _ => Resolved {| ok := true; body := Some directory |};
     action_endpoint := fun _ _ => reply |}.

(** The server accepts every action. *)
Definition accepting : Network :=
  serves (Resolved {| ok := true;
                      body := Some {| message := Present "Done"; detail := Absent |} |}).

(** The server accepts and answers with an empty object. *)
Definition terse : Network :=
  serves (Resolved {| ok := true;
                      body := Some {| message := Absent; detail := Absent |} |}).

(** The server rejects every action and says why. *)
Definition rejecting : Network :=
  serves (Resolved {| ok := false;
                      body := Some {| message := Absent;
                                      detail := Present "Student is already signed up" |} |}).

(** The server rejects every action with an empty detail text. *)
Definition rejecting_silently : Network :=
  serves (Resolved {| ok := false;
                      body := Some {| message := Absent; detail := Present "" |} |}).

(** No request gets through. *)
Definition offline : Network :=
  {| list_endpoint := fun _ _ => Rejected;
     action_endpoint := fun _ _ => Rejected |}.

(** An entry the data model excludes: no participants array. *)
Definition unnamed_club : Details :=
  {| description := Present "No roster yet";
     schedule := Present "Sundays";
     max_participants := Present 5%Z;
     participants := Absent |}.

(** ** What the further properties are stated with *)

(** The strings a subtree received through [innerHTML], in document order. *)
Fixpoint markups (n : Node) : list string :=
  match n with
  | Text _ => []
  | Markup html => [html]
  | Element _ _ _ _ _ k => flat_map markups k
  end.

(** The strings a subtree received through [textContent], in document
    order. *)
Fixpoint texts (n : Node) : list string :=
  match n with
  | Text data => [data]
  | Markup _ => []
  | Element _ _ _ _ _ k => flat_map texts k
  end.

(** The click listeners attached in a subtree, in document order. *)
Fixpoint listeners (n : Node) : list Listener :=
  match n with
  | Element _ _ _ _ l k =>
      match l with
      | Some listener => [listener]
      | None => []
      end ++ flat_map listeners k
  | _ => []
  end.

(** The participants of an activity, none when the array is missing. *)
Definition participants_of (details : Details) : list string :=
  match participants details with
  | Present ps => ps
  | _ => []
  end.

(** A select as [fetchActivities] builds it: the placeholder, then options
    of activities. *)
Definition placeholder_first (options : list Node) : Prop :=
  exists names, options = defaultOption :: map activityOption names.


(** * Proofs *)

Local Open Scope list_scope.

(** ** Lemmas on the rendering loop *)

Lemma spotsLeft_present (details : Details) (ps : list string) :
  participants details = Present ps ->
  spotsLeft details
  = Normal (minus (ToNumber (max_participants details)) (List.length ps)).
Proof.
  intros Hps. unfold spotsLeft. rewrite Hps. reflexivity.
Qed.

Lemma activityCard_present (name : string) (details : Details) (ps : list string) :
  participants details = Present ps ->
  exists info,
    activityCard name details
    = Normal (Element "div" "activity-card" "" "" None
                [info;
                 Element "p" "" "" "" None [Markup "<strong>Participants:</strong>"];
                 participantsList name details]).
Proof.
  intros Hps. unfold activityCard. rewrite (spotsLeft_present _ _ Hps).
  cbn [createElement set_className set_innerHTML appendChild].
  remember (basic_info name details _) as html eqn:Hhtml.
  assert (Hne : parsed_nodes html = [Markup html]).
  { subst html. unfold basic_info, newline. reflexivity. }
  rewrite Hne. eexists. reflexivity.
Qed.

(** The loop over well-formed entries never throws; it appends one card per
    entry to the list and one option per entry to the select, in order. *)
Lemma forEach_render_entry (activities : Activities) :
  Forall has_participants activities ->
  forall st, exists cards,
    Forall2 card_of activities cards
    /\ forEach activities render_entry st
       = (Normal tt,
          with_activitySelect
            (activitySelect st ++ map (fun e => activityOption (fst e)) activities)
            (with_activitiesList (activitiesList st ++ cards) st)).
Proof.
  induction 1 as [| [name details] rest [ps Hps] _ IH]; intros st.
  - exists []. split; [constructor |].
    destruct st; cbn. rewrite !app_nil_r. reflexivity.
  - cbn in Hps.
    destruct (activityCard_present name details ps Hps) as [info Hcard].
    set (card := Element "div" "activity-card" "" "" None
                   [info; Element "p" "" "" "" None [Markup "<strong>Participants:</strong>"];
                    participantsList name details]) in *.
    destruct (IH (with_activitySelect (activitySelect st ++ [activityOption name])
                    (with_activitiesList (activitiesList st ++ [card]) st)))
      as [cards [Hcards Hrun]].
    exists (card :: cards). split.
    + constructor; [exact Hcard | exact Hcards].
    + cbn [forEach]. unfold bind at 1. unfold render_entry at 1.
      unfold bind at 1. unfold lift. rewrite Hcard.
      unfold bind, activitiesList_appendChild, activitySelect_appendChild, modify.
      destruct st; cbn in *. rewrite Hrun. cbn.
      rewrite <- !app_assoc. reflexivity.
Qed.

Lemma fetchActivities_resume_renders (okf : bool) (activities : Activities) (st : State) :
  Forall has_participants activities ->
  exists cards,
    Forall2 card_of activities cards
    /\ fetchActivities_resume (Resolved {| ok := okf; body := Some activities |}) st
       = (Normal tt,
          with_activitySelect
            (defaultOption :: map (fun e => activityOption (fst e)) activities)
            (with_activitiesList cards st)).
Proof.
  intros Hwf.
  destruct (forEach_render_entry activities Hwf
              (with_activitySelect [defaultOption] (with_activitiesList [] st)))
    as [cards [Hcards Hrun]].
  exists cards. split; [exact Hcards |].
  unfold fetchActivities_resume, try_catch, bind, await, json, ret,
    activitiesList_set_innerHTML, activitySelect_set_innerHTML,
    activitySelect_appendChild, modify.
  destruct st.
  unfold with_activitySelect, with_activitiesList, parsed_nodes in *.
  cbn [body ok activitiesList activitySelect message_textContent
       message_classList email_value email_defaultValue timers sent
       in_flight console app] in *.
  rewrite Hrun. reflexivity.
Qed.

Lemma fetchActivities_resume_failure (o : Outcome Activities) (st : State) :
  transport_failed o = true ->
  exists error,
    fetchActivities_resume o st
    = (Normal tt,
       with_console (console st ++ [("Error fetching activities:", error)])
         (with_activitiesList [Markup failure_notice] st)).
Proof.
  intros Hfail. destruct o as [| [okf [acts |]]]; cbn in Hfail; try discriminate.
  - exists NetworkFailure. destruct st; reflexivity.
  - exists SyntaxError. destruct st; reflexivity.
Qed.

Lemma activityOption_not_placeholder (name : string) :
  activityOption name <> defaultOption.
Proof.
  unfold activityOption, defaultOption. cbn. intros H.
  injection H as Hname Hkids. subst name. discriminate Hkids.
Qed.

Lemma fold_left_appendChild (f : string -> Node) (ps : list string)
      (t c ti v : string) (l : option Listener) (k : list Node) :
  fold_left (fun ul p => appendChild (f p) ul) ps (Element t c ti v l k)
  = Element t c ti v l (k ++ map f ps).
Proof.
  revert k. induction ps as [| p ps IH]; intros k; cbn.
  - rewrite app_nil_r. reflexivity.
  - rewrite IH, <- app_assoc. reflexivity.
Qed.

Lemma participantsList_children (name : string) (details : Details) (ps : list string) :
  participants details = Present ps ->
  participantsList name details
  = Element "ul" "participants-list" "" "" None
      (match ps with
       | [] => [noParticipantsItem]
       | _ :: _ => map (participantItem name) ps
       end).
Proof.
  intros Hps. unfold participantsList. rewrite Hps.
  destruct ps as [| p ps]; cbn [is_nonempty_array].
  - reflexivity.
  - cbn [createElement set_className]. rewrite fold_left_appendChild. reflexivity.
Qed.

Lemma count_participantItem (name p : string) :
  count "button" "delete-participant-btn" (participantItem name p) = 1
  /\ count "li" "no-participants" (participantItem name p) = 0
  /\ count "li" "participant-item" (participantItem name p) = 1.
Proof.
  unfold participantItem, deleteBtn. cbn.
  destruct (text_nodes p) as [| n l] eqn:Hp.
  - cbn. repeat split; reflexivity.
  - unfold text_nodes in Hp. destruct p; [discriminate |].
    injection Hp as <- <-. cbn. repeat split; reflexivity.
Qed.

Lemma list_sum_map_const {A} (f : A -> nat) (c : nat) (l : list A) :
  (forall a, In a l -> f a = c) -> list_sum (map f l) = List.length l * c.
Proof.
  induction l as [| a l IH]; intros H; [reflexivity |].
  change (f a + list_sum (map f l) = c + List.length l * c).
  rewrite (H a (or_introl eq_refl)), IH; [reflexivity |].
  intros b Hb. apply H. right. exact Hb.
Qed.

Lemma append_assoc (a b c : string) : ((a ++ b) ++ c = a ++ (b ++ c))%string.
Proof. induction a as [| x a IH]; cbn; [reflexivity | rewrite IH; reflexivity]. Qed.

(** ** What a load leaves untouched *)

(** The loop touches the list and the select only, and what it appends does
    not depend on the page it runs on. *)
Lemma forEach_render_entry_frame (activities : Activities) :
  exists c l s, forall st,
    forEach activities render_entry st
    = (c, with_activitySelect (activitySelect st ++ s)
            (with_activitiesList (activitiesList st ++ l) st)).
Proof.
  induction activities as [| [name details] rest (c & l & s & IH)].
  - exists (Normal tt), [], []. intros st.
    destruct st; cbn. rewrite !app_nil_r. reflexivity.
  - destruct (activityCard name details) as [card | e] eqn:Hcard.
    + exists c, (card :: l), (activityOption name :: s). intros st.
      cbn [forEach]. unfold bind at 1. unfold render_entry at 1.
      unfold bind at 1. unfold lift. rewrite Hcard.
      unfold bind, activitiesList_appendChild, activitySelect_appendChild, modify.
      rewrite IH. destruct st; cbn. rewrite <- !app_assoc. reflexivity.
    + exists (Throw e), [], []. intros st.
      cbn [forEach]. unfold bind at 1. unfold render_entry at 1.
      unfold bind at 1. unfold lift. rewrite Hcard.
      destruct st; cbn. rewrite !app_nil_r. reflexivity.
Qed.

(** [fetchActivities] never throws.  It writes the list, the select and the
    console; the list it leaves depends on the response alone, and so does
    the select unless the transport failed, when the select is kept. *)
Lemma fetchActivities_resume_frame (o : Outcome Activities) :
  exists (l : list Node) (s : option (list Node)) (c : list (string * Exception)),
  forall st,
    fetchActivities_resume o st
    = (Normal tt,
       with_console (console st ++ c)
         (with_activitySelect (match s with
                               | Some options => options
                               | None => activitySelect st
                               end)
            (with_activitiesList l st))).
Proof.
  destruct (transport_failed o) eqn:Hfail.
  - destruct o as [| [okf [activities |]]]; try discriminate Hfail.
    + exists [Markup failure_notice], None,
        [("Error fetching activities:", NetworkFailure)].
      intros st. destruct st; reflexivity.
    + exists [Markup failure_notice], None,
        [("Error fetching activities:", SyntaxError)].
      intros st. destruct st; reflexivity.
  - destruct o as [| [okf [activities |]]]; try discriminate Hfail.
    destruct (forEach_render_entry_frame activities) as (c & l & s & Heq).
    destruct c as [[] | e].
    + exists l, (Some (defaultOption :: s)), []. intros st.
      unfold fetchActivities_resume, try_catch, bind, await, json, ret,
        activitiesList_set_innerHTML, activitySelect_set_innerHTML,
        activitySelect_appendChild, modify.
      cbn [body]. rewrite Heq. destruct st; cbn. rewrite app_nil_r. reflexivity.
    + exists [Markup failure_notice], (Some (defaultOption :: s)),
        [("Error fetching activities:", e)].
      intros st.
      unfold fetchActivities_resume, try_catch, bind, await, json, ret,
        activitiesList_set_innerHTML, activitySelect_set_innerHTML,
        activitySelect_appendChild, modify.
      cbn [body]. rewrite Heq. destruct st; reflexivity.
Qed.

Ltac unfold_stmt :=
  unfold signupForm_submit, deleteBtn_click, load_arrives, timer_fires,
    run_callback, fetchActivities, fetchActivities_detached, fetch,
    messageDiv_set_textContent, messageDiv_set_className,
    messageDiv_classList_remove, messageDiv_classList_add, setTimeout,
    console_error, signupForm_reset, exec, completion;
  unfold send, await, json, try_catch, bind, ret, throw, gets, modify, lift;
  cbv beta iota.

Ltac frame_resume :=
  match goal with
  | |- context [fetchActivities_resume ?o] =>
      let l := fresh "l" in
      let s := fresh "s" in
      let c := fresh "c" in
      let Heq := fresh "Heq" in
      destruct (fetchActivities_resume_frame o) as (l & s & c & Heq);
      rewrite !Heq
  end.

(** ** The pages the listeners leave *)

Lemma length_snoc {A} (l : list A) (a : A) : List.length (l ++ [a]) = S (List.length l).
Proof. rewrite length_app. cbn. lia. Qed.

Lemma nth_error_snoc {A} (l : list A) (a : A) :
  nth_error (l ++ [a]) (List.length l) = Some a.
Proof. induction l as [| b l IH]; cbn; [reflexivity | exact IH]. Qed.

Lemma remove_snoc {A} (l : list A) (a : A) :
  (firstn (List.length l) (l ++ [a]) ++ skipn (S (List.length l)) (l ++ [a]))%list = l.
Proof.
  induction l as [| b l IH]; cbn; [reflexivity |].
  f_equal. exact IH.
Qed.

(** A load that was not awaited and whose response arrives before any
    other event leaves the page an awaited load leaves. *)
Lemma detached_load_arrives (net : Network) (st : State) :
  exec (load_arrives (List.length (in_flight st))) (exec (fetchActivities_detached net) st)
  = exec (fetchActivities net) st.
Proof.
  unfold exec, load_arrives, fetchActivities_detached, fetchActivities,
    bind, send, gets, modify.
  cbn [snd in_flight with_in_flight].
  rewrite nth_error_snoc, remove_snoc.
  destruct st; reflexivity.
Qed.

(** An entry without its participants array stops the loop at line 28: the
    entries before it are in the select, the list holds the failure notice. *)
Example entry_without_participants :
  let st' := exec (fetchActivities_resume
                     (Resolved {| ok := true;
                                  body := Some [("Chess Club", chess_club);
                                                ("Unnamed", unnamed_club);
                                                ("Art Club", art_club)] |}))
               sample_page in
  activitiesList st' = [Markup failure_notice]
  /\ activitySelect st' = [defaultOption; activityOption "Chess Club"]
  /\ console st' = [("Error fetching activities:", TypeError)].
Proof. repeat split; reflexivity. Qed.

(** What a signup does when the server accepts it. *)
Lemma signupForm_submit_completed (net : Network) (st : State) (activity : string) (r : Reply) :
  action_endpoint net (List.length (sent st)) (signup_request activity (email_value st))
  = Resolved {| ok := true; body := Some r |} ->
  signupForm_submit net activity st
  = (Normal tt,
     with_timers (timers st ++ [(5000, HideMessage)])
       (with_message_classList ["success"]
          (exec (fetchActivities_resume
                   (list_endpoint net (S (List.length (sent st))) activities_request))
             (with_sent (sent st ++ [signup_request activity (email_value st);
                                     activities_request])
                (with_email_value (email_defaultValue st)
                   (with_message_textContent
                      (textContent_value (nullable_DOMString (message r))) st)))))).
Proof.
  intros H. unfold_stmt. rewrite H. cbv beta iota. cbn [body ok].
  cbn [sent with_email_value with_message_classList with_message_textContent with_sent].
  rewrite length_snoc. frame_resume.
  destruct st; cbn. rewrite <- app_assoc. reflexivity.
Qed.

(** What a signup does when the server rejects it. *)
Lemma signupForm_submit_rejected (net : Network) (st : State) (activity : string) (r : Reply) :
  action_endpoint net (List.length (sent st)) (signup_request activity (email_value st))
  = Resolved {| ok := false; body := Some r |} ->
  signupForm_submit net activity st
  = (Normal tt,
     with_timers (timers st ++ [(5000, HideMessage)])
       (with_message_classList ["error"]
          (with_message_textContent
             (textContent_value (nullable_DOMString (or_else (detail r) "An error occurred")))
             (with_sent (sent st ++ [signup_request activity (email_value st)]) st)))).
Proof.
  intros H. unfold_stmt. rewrite H. cbv beta iota. cbn [body ok].
  destruct st; reflexivity.
Qed.

(** What a signup does when no response arrives or its body does not parse. *)
Lemma signupForm_submit_transport_failed (net : Network) (st : State) (activity : string) :
  transport_failed
    (action_endpoint net (List.length (sent st)) (signup_request activity (email_value st)))
  = true ->
  exists error,
    signupForm_submit net activity st
    = (Normal tt,
       with_console (console st ++ [("Error signing up:", error)])
         (with_message_classList ["error"]
            (with_message_textContent "Failed to sign up. Please try again."
               (with_sent (sent st ++ [signup_request activity (email_value st)]) st)))).
Proof.
  intros H. unfold_stmt.
  destruct (action_endpoint net _ _) as [| [okf [r |]]]; try discriminate H.
  - exists NetworkFailure. destruct st; reflexivity.
  - exists SyntaxError. destruct st; reflexivity.
Qed.

(** What a click on a delete button does when the server accepts. *)
Lemma deleteBtn_click_completed (net : Network) (st : State) (name participant : string)
      (r : Reply) :
  action_endpoint net (List.length (sent st)) (unregister_request name participant)
  = Resolved {| ok := true; body := Some r |} ->
  deleteBtn_click net name participant st
  = (Normal tt,
     with_timers (timers st ++ [(5000, HideMessage)])
       (with_message_classList ["success"]
          (with_in_flight
             (in_flight st
              ++ [list_endpoint net (S (List.length (sent st))) activities_request])
             (with_sent (sent st ++ [unregister_request name participant;
                                     activities_request])
                (with_message_textContent
                   (textContent_value (nullable_DOMString (message r))) st))))).
Proof.
  intros H. unfold_stmt. rewrite H. cbv beta iota. cbn [body ok].
  cbn [sent with_message_classList with_message_textContent with_sent].
  rewrite length_snoc.
  destruct st; cbn. rewrite <- app_assoc. reflexivity.
Qed.

Lemma deleteBtn_click_rejected (net : Network) (st : State) (name participant : string)
      (r : Reply) :
  action_endpoint net (List.length (sent st)) (unregister_request name participant)
  = Resolved {| ok := false; body := Some r |} ->
  deleteBtn_click net name participant st
  = (Normal tt,
     with_timers (timers st ++ [(5000, HideMessage)])
       (with_message_classList ["error"]
          (with_message_textContent
             (textContent_value (nullable_DOMString (or_else (detail r) "Failed to unregister")))
             (with_sent (sent st ++ [unregister_request name participant]) st)))).
Proof.
  intros H. unfold_stmt. rewrite H. cbv beta iota. cbn [body ok].
  destruct st; reflexivity.
Qed.

Lemma deleteBtn_click_transport_failed (net : Network) (st : State)
      (name participant : string) :
  transport_failed
    (action_endpoint net (List.length (sent st)) (unregister_request name participant))
  = true ->
  exists error,
    deleteBtn_click net name participant st
    = (Normal tt,
       with_console (console st ++ [("Error unregistering:", error)])
         (with_message_classList ["error"]
            (with_message_textContent "Failed to unregister. Please try again."
               (with_sent (sent st ++ [unregister_request name participant]) st)))).
Proof.
  intros H. unfold_stmt.
  destruct (action_endpoint net _ _) as [| [okf [r |]]]; try discriminate H.
  - exists NetworkFailure. destruct st; reflexivity.
  - exists SyntaxError. destruct st; reflexivity.
Qed.

(** A request that did not complete failed in transport or was rejected. *)
Lemma not_completed_cases {B} (o : Outcome B) :
  completed o = false ->
  transport_failed o = true
  \/ exists r, o = Resolved {| ok := false; body := Some r |}.
Proof.
  destruct o as [| [[] [b |]]]; cbn; intros H; try discriminate H; eauto.
Qed.

Lemma completed_cases {B} (o : Outcome B) :
  completed o = true -> exists r, o = Resolved {| ok := true; body := Some r |}.
Proof.
  destruct o as [| [[] [b |]]]; cbn; intros H; try discriminate H; eauto.
Qed.

(** The exact pages the listeners leave, by action. *)
Lemma listener_completed (net : Network) (st : State) (a : Action) (r : Reply) :
  answer net st a = Resolved {| ok := true; body := Some r |} ->
  listener_of net a st
  = (Normal tt,
     match a with
     | Signup _ =>
         with_timers (timers st ++ [(5000, HideMessage)])
           (with_message_classList ["success"]
              (exec (fetchActivities_resume (reload_answer net st))
                 (with_sent (sent st ++ [request_of st a; activities_request])
                    (with_email_value (email_defaultValue st)
                       (with_message_textContent
                          (textContent_value (nullable_DOMString (message r))) st)))))
     | Unregister _ _ =>
         with_timers (timers st ++ [(5000, HideMessage)])
           (with_message_classList ["success"]
              (with_in_flight (in_flight st ++ [reload_answer net st])
                 (with_sent (sent st ++ [request_of st a; activities_request])
                    (with_message_textContent
                       (textContent_value (nullable_DOMString (message r))) st))))
     end).
Proof.
  destruct a as [activity | name participant]; intros H.
  - apply signupForm_submit_completed. exact H.
  - apply deleteBtn_click_completed. exact H.
Qed.

Lemma listener_rejected (net : Network) (st : State) (a : Action) (r : Reply) :
  answer net st a = Resolved {| ok := false; body := Some r |} ->
  listener_of net a st
  = (Normal tt,
     with_timers (timers st ++ [(5000, HideMessage)])
       (with_message_classList ["error"]
          (with_message_textContent
             (textContent_value (nullable_DOMString (or_else (detail r) (fallback_of a))))
             (with_sent (sent st ++ [request_of st a]) st)))).
Proof.
  destruct a as [activity | name participant]; intros H.
  - apply signupForm_submit_rejected. exact H.
  - apply deleteBtn_click_rejected. exact H.
Qed.

Lemma listener_transport_failed (net : Network) (st : State) (a : Action) :
  transport_failed (answer net st a) = true ->
  exists error label,
    listener_of net a st
    = (Normal tt,
       with_console (console st ++ [(label, error)])
         (with_message_classList ["error"]
            (with_message_textContent (caught_of a)
               (with_sent (sent st ++ [request_of st a]) st)))).
Proof.
  destruct a as [activity | name participant]; intros H.
  - destruct (signupForm_submit_transport_failed net st activity H) as [e He].
    exists e, "Error signing up:". exact He.
  - destruct (deleteBtn_click_transport_failed net st name participant H) as [e He].
    exists e, "Error unregistering:". exact He.
Qed.

(** ** Timers *)

(** Timers that are not pending do not fire. *)
Lemma no_timer_no_change (net : Network) (fired : list nat) (st : State) :
  timers st = [] -> run net (map TimerFires fired) st = (Normal tt, st).
Proof.
  intros Hnone. induction fired as [| i fired IH]; [reflexivity |].
  cbn [map run forEach]. unfold bind at 1. cbn [handle].
  unfold timer_fires, bind, gets. rewrite Hnone.
  destruct i; cbn [nth_error]; unfold ret; exact IH.
Qed.

(** X7. The response paths of both listeners set the timer that hides the
    message (lines 94-96 and 163-165): when a request is answered with a
    JSON body, whatever its status, the listener leaves the message showing
    and one new timer of 5000 ms pending after the others, and the message
    hides when that timer fires. *)
Lemma answered_action_sets_hide_timer (net : Network) (st : State) (a : Action) :
  transport_failed (answer net st a) = false ->
  let st' := exec (listener_of net a) st in
  timers st' = timers st ++ [(5000, HideMessage)]
  /\ message_visible st' = true
  /\ message_visible (exec (timer_fires (List.length (timers st))) st') = false.
Proof.
  intros Hanswered st'. subst st'.
  assert (Hcases : exists okf r, answer net st a = Resolved {| ok := okf; body := Some r |}).
  { destruct (answer net st a) as [| [okf [r |]]]; try discriminate Hanswered; eauto. }
  destruct Hcases as (okf & r & Hr).
  unfold exec, timer_fires, bind, gets, modify, run_callback, messageDiv_classList_add.
  destruct okf.
  - rewrite (listener_completed net st a r Hr). cbn [snd].
    destruct a as [activity | name participant];
      cbn [timers with_timers]; rewrite nth_error_snoc, remove_snoc;
      destruct st; cbn; repeat split; reflexivity.
  - rewrite (listener_rejected net st a r Hr). cbn [snd].
    cbn [timers with_timers]. rewrite nth_error_snoc, remove_snoc.
    destruct st; cbn. repeat split; reflexivity.
Qed.

(** The example of the specification: ten places, one participant. *)
Example chess_club_capacity :
  spotsLeft chess_club = Normal (Int 9)
  /\ Number_toString (Int 9) = "9"
  /\ Number_toString (Int (-2)) = "-2".
Proof. repeat split; reflexivity. Qed.

(** ** The claims *)

(** C1. For every activity collection the list endpoint returns, the list
    shows one card per entry of the collection, each the card of its entry,
    and the select holds the placeholder option followed by one option per
    entry; no activity's option is the placeholder.  The response's status
    plays no part. *)
Theorem fetchActivities_one_card_and_one_option_per_activity
        (net : Network) (st : State) (okf : bool) (activities : Activities) :
  list_endpoint net (List.length (sent st)) activities_request
  = Resolved {| ok := okf; body := Some activities |} ->
  Forall has_participants activities ->
  let st' := exec (fetchActivities net) st in
  Forall2 card_of activities (activitiesList st')
  /\ List.length (activitiesList st') = List.length activities
  /\ activitySelect st' = defaultOption :: map (fun e => activityOption (fst e)) activities
  /\ List.length (activitySelect st') = S (List.length activities)
  /\ Forall (fun e => activityOption (fst e) <> defaultOption) activities.
Proof.
  intros Hres Hwf st'.
  assert (Hst' : exists cards,
             Forall2 card_of activities cards
             /\ activitiesList st' = cards
             /\ activitySelect st'
                = defaultOption :: map (fun e => activityOption (fst e)) activities).
  { subst st'. unfold exec, fetchActivities, bind, send. rewrite Hres.
    destruct (fetchActivities_resume_renders okf activities
                (with_sent (sent st ++ [activities_request]) st) Hwf)
      as [cards [Hcards Hrun]].
    rewrite Hrun. exists cards. destruct st; cbn. auto. }
  destruct Hst' as (cards & Hcards & Hlist & Hselect).
  rewrite Hlist, Hselect. repeat split.
  - exact Hcards.
  - symmetry. eapply Forall2_length. exact Hcards.
  - cbn. rewrite length_map. reflexivity.
  - apply Forall_forall. intros e _. apply activityOption_not_placeholder.
Qed.

Lemma fetchActivities_one_card_and_one_option_per_activity_witness :
  let st' := exec (fetchActivities accepting) sample_page in
  List.length (activitiesList st') = 2
  /\ activitySelect st'
     = [defaultOption; activityOption "Chess Club"; activityOption "Art Club"].
Proof.
  assert (Hwf : Forall has_participants directory).
  { repeat constructor; eexists; reflexivity. }
  destruct (fetchActivities_one_card_and_one_option_per_activity
              accepting sample_page true directory eq_refl Hwf)
    as (_ & Hlen & Hsel & _).
  split; [exact Hlen | exact Hsel].
Defined.





(** C4.  The claim does not hold on the catch paths of the listeners (lines
    97-102 and 166-171), which show a message and set no timer.  With the
    network down, a click on a delete button shows its error message, no
    timer is pending afterwards, and the message shows whatever timer events
    follow. *)
Theorem transport_failure_message_is_never_hidden :
  let st' := exec (deleteBtn_click offline "Chess Club" "a@x.com") sample_page in
  message_textContent st' = "Failed to unregister. Please try again."
  /\ message_visible st' = true
  /\ timers st' = []
  /\ forall fired : list nat,
       message_visible (exec (run offline (map TimerFires fired)) st') = true.
Proof.
  cbv zeta. split; [reflexivity |]. split; [reflexivity |]. split; [reflexivity |].
  intros fired. unfold exec at 1.
  rewrite no_timer_no_change; reflexivity.
Qed.

(** C5. When the list request fails in transport, or its response does not
    parse, [fetchActivities] completes normally, the list holds the failure
    notice alone, the select is as it was, and one request went out: no
    second request is sent, no reload is pending, no timer is set. *)
Theorem fetchActivities_failure_shows_notice (net : Network) (st : State) :
  transport_failed (list_endpoint net (List.length (sent st)) activities_request) = true ->
  let st' := exec (fetchActivities net) st in
  completion (fetchActivities net) st = Normal tt
  /\ activitiesList st' = [Markup failure_notice]
  /\ activitySelect st' = activitySelect st
  /\ sent st' = sent st ++ [activities_request]
  /\ in_flight st' = in_flight st
  /\ timers st' = timers st.
Proof.
  intros Hfail st'. subst st'.
  unfold completion, exec, fetchActivities, bind, send.
  destruct (fetchActivities_resume_failure _
              (with_sent (sent st ++ [activities_request]) st) Hfail) as [e He].
  rewrite He. destruct st; cbn. repeat split; reflexivity.
Qed.

Lemma fetchActivities_failure_shows_notice_witness :
  let st' := exec (fetchActivities offline) sample_page in
  activitiesList st' = [Markup failure_notice]
  /\ activitySelect st' = [defaultOption]
  /\ sent st' = [activities_request].
Proof.
  destruct (fetchActivities_failure_shows_notice offline sample_page eq_refl)
    as (_ & Hlist & Hsel & Hsent & _).
  split; [exact Hlist | split; [exact Hsel | exact Hsent]].
Defined.

(** C6. On a page whose email field has the empty default its markup gives
    it, a signup that completes leaves the email field empty, and a signup
    that fails leaves the email field as the user filled it. *)
Theorem signup_clears_email_only_on_success
        (net : Network) (st : State) (activity : string) :
  email_defaultValue st = "" ->
  let st' := exec (signupForm_submit net activity) st in
  (completed (answer net st (Signup activity)) = true -> email_value st' = "")
  /\ (completed (answer net st (Signup activity)) = false ->
      email_value st' = email_value st).
Proof.
  intros Hdefault st'. subst st'. unfold exec. split.
  - intros Hdone. destruct (completed_cases _ Hdone) as [r Hr].
    pose proof (listener_completed net st (Signup activity) r Hr) as Hrun.
    cbn [listener_of handle] in Hrun. rewrite Hrun. cbn [snd].
    destruct (fetchActivities_resume_frame (reload_answer net st)) as (l & s & c & Heq).
    unfold exec. rewrite Heq. rewrite <- Hdefault. destruct st; reflexivity.
  - intros Hfailed.
    destruct (not_completed_cases _ Hfailed) as [Htransport | [r Hr]].
    + destruct (listener_transport_failed net st (Signup activity) Htransport)
        as (e & label & Hrun).
      cbn [listener_of handle] in Hrun. rewrite Hrun. destruct st; reflexivity.
    + pose proof (listener_rejected net st (Signup activity) r Hr) as Hrun.
      cbn [listener_of handle] in Hrun. rewrite Hrun. destruct st; reflexivity.
Qed.

Lemma signup_clears_email_only_on_success_witness :
  email_value (exec (signupForm_submit accepting "Chess Club") sample_page) = ""
  /\ email_value (exec (signupForm_submit rejecting "Chess Club") sample_page) = "a@x.com"
  /\ email_value (exec (signupForm_submit offline "Chess Club") sample_page) = "a@x.com".
Proof.
  split; [| split].
  - apply (signup_clears_email_only_on_success accepting sample_page "Chess Club" eq_refl).
    reflexivity.
  - apply (signup_clears_email_only_on_success rejecting sample_page "Chess Club" eq_refl).
    reflexivity.
  - apply (signup_clears_email_only_on_success offline sample_page "Chess Club" eq_refl).
    reflexivity.
Defined.

(** C7, as the claim states it, fails: a rejection whose detail text is
    present and empty shows the fallback text, not the detail. *)
Lemma empty_detail_shows_fallback :
  answer rejecting_silently sample_page (Unregister "Chess Club" "a@x.com")
  = Resolved {| ok := false;
                body := Some {| message := Absent; detail := Present "" |} |}
  /\ message_textContent
       (exec (deleteBtn_click rejecting_silently "Chess Club" "a@x.com") sample_page)
     = "Failed to unregister"
  /\ message_textContent
       (exec (deleteBtn_click rejecting_silently "Chess Club" "a@x.com") sample_page)
     <> "".
Proof.
  split; [reflexivity |]. split; [reflexivity | discriminate].
Qed.

(** C7, amended.  A listener never throws.  When the server rejects the
    request (a status that is not 2xx, with a JSON body), the message is the
    detail text if it is present and not empty, and the listener's fallback
    text if the detail is missing, null or empty.  When no response arrives
    or the body does not parse, the message is the listener's text for a
    caught exception.  Either way the message is styled as an error. *)
Theorem failed_action_message (net : Network) (st : State) (a : Action) :
  let st' := exec (listener_of net a) st in
  completion (listener_of net a) st = Normal tt
  /\ (forall r, answer net st a = Resolved {| ok := false; body := Some r |} ->
        (forall d, detail r = Present d -> d <> "" -> message_textContent st' = d)
        /\ (detail r = Absent \/ detail r = Null \/ detail r = Present "" ->
            message_textContent st' = fallback_of a)
        /\ message_classList st' = ["error"])
  /\ (transport_failed (answer net st a) = true ->
      message_textContent st' = caught_of a
      /\ message_classList st' = ["error"]).
Proof.
  intros st'. subst st'. unfold exec, completion. split; [| split].
  - destruct (completed (answer net st a)) eqn:Hdone.
    + destruct (completed_cases _ Hdone) as [r Hr].
      rewrite (listener_completed net st a r Hr). reflexivity.
    + destruct (not_completed_cases _ Hdone) as [Htransport | [r Hr]].
      * destruct (listener_transport_failed net st a Htransport) as (e & label & Hrun).
        rewrite Hrun. reflexivity.
      * rewrite (listener_rejected net st a r Hr). reflexivity.
  - intros r Hr. rewrite (listener_rejected net st a r Hr). cbn [snd].
    split; [| split].
    + intros d Hd Hne. rewrite Hd. destruct d as [| x d]; [contradiction |].
      destruct st; reflexivity.
    + intros [Hd | [Hd | Hd]]; rewrite Hd; destruct st; reflexivity.
    + destruct st; reflexivity.
  - intros Htransport.
    destruct (listener_transport_failed net st a Htransport) as (e & label & Hrun).
    rewrite Hrun. destruct st; cbn. split; reflexivity.
Qed.

Lemma failed_action_message_witness :
  message_textContent (exec (listener_of rejecting (Signup "Chess Club")) sample_page)
  = "Student is already signed up"
  /\ message_textContent
       (exec (listener_of rejecting_silently (Signup "Chess Club")) sample_page)
     = "An error occurred"
  /\ message_textContent (exec (listener_of offline (Signup "Chess Club")) sample_page)
     = "Failed to sign up. Please try again.".
Proof.
  destruct (failed_action_message rejecting sample_page (Signup "Chess Club"))
    as (_ & Hrejected & _).
  destruct (failed_action_message rejecting_silently sample_page (Signup "Chess Club"))
    as (_ & Hsilent & _).
  destruct (failed_action_message offline sample_page (Signup "Chess Club"))
    as (_ & _ & Hcaught).
  destruct (Hrejected _ eq_refl) as (Hdetail & _).
  destruct (Hsilent _ eq_refl) as (_ & Hfallback & _).
  split; [| split].
  - apply (Hdetail "Student is already signed up" eq_refl). discriminate.
  - apply Hfallback. right. right. reflexivity.
  - apply (Hcaught eq_refl).
Defined.

(** C8. The participants list of an activity is the last part of its card.
    With no participant it holds the one placeholder row and no delete
    button.  Otherwise it holds one row per participant, in order, no
    placeholder, and each row carries one delete button, whose click
    unregisters that participant from that activity. *)
Theorem participants_rows_and_controls
        (name : string) (details : Details) (ps : list string) :
  participants details = Present ps ->
  let ul := participantsList name details in
  (exists info header,
      activityCard name details
      = Normal (Element "div" "activity-card" "" "" None [info; header; ul]))
  /\ (ps = [] ->
      children ul = [noParticipantsItem]
      /\ count "li" "no-participants" ul = 1
      /\ count "li" "participant-item" ul = 0
      /\ count "button" "delete-participant-btn" ul = 0)
  /\ (ps <> [] ->
      children ul = map (participantItem name) ps
      /\ count "li" "no-participants" ul = 0
      /\ count "li" "participant-item" ul = List.length ps
      /\ count "button" "delete-participant-btn" ul = List.length ps
      /\ forall p, In p ps ->
           count "button" "delete-participant-btn" (participantItem name p) = 1
           /\ participantItem name p
              = Element "li" "participant-item" "" "" None
                  [Element "div" "participant-container" "" "" None
                     [Element "span" "" "" "" None (text_nodes p);
                      deleteBtn name p]]
           /\ deleteBtn name p
              = Element "button" "delete-participant-btn" ("Unregister " ++ p)%string ""
                  (Some (UnregisterClick name p)) [Markup "✕"]).
Proof.
  intros Hps ul.
  assert (Hul : ul = Element "ul" "participants-list" "" "" None
                       (match ps with
                        | [] => [noParticipantsItem]
                        | _ :: _ => map (participantItem name) ps
                        end)).
  { apply participantsList_children. exact Hps. }
  split; [| split].
  - destruct (activityCard_present name details ps Hps) as [info Hcard].
    eexists info, _. exact Hcard.
  - intros ->. rewrite Hul. repeat split; reflexivity.
  - intros Hne. destruct ps as [| p0 ps']; [contradiction |].
    rewrite Hul. set (rows := p0 :: ps') in *.
    split; [reflexivity |].
    split; [| split; [| split]].
    + cbn [count is_element String.eqb Ascii.eqb Bool.eqb andb]. cbn [Nat.add].
      rewrite map_map.
      rewrite (list_sum_map_const _ 0); [lia |].
      intros p _. exact (proj1 (proj2 (count_participantItem name p))).
    + cbn [count is_element String.eqb Ascii.eqb Bool.eqb andb]. cbn [Nat.add].
      rewrite map_map.
      rewrite (list_sum_map_const _ 1); [lia |].
      intros p _. exact (proj2 (proj2 (count_participantItem name p))).
    + cbn [count is_element String.eqb Ascii.eqb Bool.eqb andb]. cbn [Nat.add].
      rewrite map_map.
      rewrite (list_sum_map_const _ 1); [lia |].
      intros p _. exact (proj1 (count_participantItem name p)).
    + intros p _. split; [exact (proj1 (count_participantItem name p)) |].
      split; reflexivity.
Qed.

Lemma participants_rows_and_controls_witness :
  count "li" "no-participants" (participantsList "Art Club" art_club) = 1
  /\ count "button" "delete-participant-btn" (participantsList "Art Club" art_club) = 0
  /\ count "button" "delete-participant-btn" (participantsList "Chess Club" chess_club) = 1.
Proof.
  destruct (participants_rows_and_controls "Art Club" art_club [] eq_refl)
    as (_ & Hempty & _).
  destruct (participants_rows_and_controls "Chess Club" chess_club ["a@x.com"] eq_refl)
    as (_ & _ & Hsome).
  destruct (Hempty eq_refl) as (_ & Hrow & _ & Hnone).
  assert (Hne : ["a@x.com"] <> @nil string) by discriminate.
  destruct (Hsome Hne) as (_ & _ & _ & Hbtn & _).
  split; [exact Hrow | split; [exact Hnone | exact Hbtn]].
Defined.

(** C9. When a signup or an unregister request fails (no response, a body
    that does not parse, or a status that is not 2xx), its listener sends
    that one request and no list request, leaves no reload pending, and
    leaves the list and the select as they were. *)
Theorem failed_action_does_not_reload (net : Network) (st : State) (a : Action) :
  completed (answer net st a) = false ->
  let st' := exec (listener_of net a) st in
  sent st' = sent st ++ [request_of st a]
  /\ in_flight st' = in_flight st
  /\ activitiesList st' = activitiesList st
  /\ activitySelect st' = activitySelect st.
Proof.
  intros Hfailed st'. subst st'. unfold exec.
  destruct (not_completed_cases _ Hfailed) as [Htransport | [r Hr]].
  - destruct (listener_transport_failed net st a Htransport) as (e & label & Hrun).
    rewrite Hrun. destruct st; cbn. repeat split; reflexivity.
  - rewrite (listener_rejected net st a r Hr).
    destruct st; cbn. repeat split; reflexivity.
Qed.

Lemma failed_action_does_not_reload_witness :
  let st' := exec (listener_of rejecting (Signup "Chess Club")) sample_page in
  sent st' = [signup_request "Chess Club" "a@x.com"]
  /\ in_flight st' = []
  /\ activitiesList st' = [Markup "<p>Loading activities...</p>"]
  /\ activitySelect st' = [defaultOption].
Proof.
  exact (failed_action_does_not_reload rejecting sample_page (Signup "Chess Club") eq_refl).
Defined.

(** C10, as the claim states it, fails: a 2xx response without a message
    field leaves the message text empty, not the string [undefined]. *)
Lemma missing_message_shows_empty_text :
  answer terse sample_page (Signup "Chess Club")
  = Resolved {| ok := true; body := Some {| message := Absent; detail := Absent |} |}
  /\ message_textContent (exec (signupForm_submit terse "Chess Club") sample_page) = ""
  /\ message_textContent (exec (signupForm_submit terse "Chess Club") sample_page)
     <> "undefined".
Proof.
  split; [reflexivity |]. split; [reflexivity | discriminate].
Qed.

(** C10, amended.  When a signup or an unregister request completes, the
    message is the text of the response's message field, with no fallback:
    when that field is missing or null the message text is empty.  The
    message is styled as a success and shows. *)
Theorem completed_action_message
        (net : Network) (st : State) (a : Action) (r : Reply) :
  answer net st a = Resolved {| ok := true; body := Some r |} ->
  let st' := exec (listener_of net a) st in
  (forall s, message r = Present s -> message_textContent st' = s)
  /\ (message r = Absent \/ message r = Null -> message_textContent st' = "")
  /\ message_classList st' = ["success"]
  /\ message_visible st' = true.
Proof.
  intros Hr st'. subst st'. unfold exec.
  rewrite (listener_completed net st a r Hr). cbn [snd].
  destruct (fetchActivities_resume_frame (reload_answer net st)) as (l & s & c & Heq).
  destruct a as [activity | name participant].
  - unfold exec. rewrite Heq. cbn [snd]. repeat split.
    + intros t Ht. rewrite Ht. destruct st; reflexivity.
    + intros [Hm | Hm]; rewrite Hm; destruct st; reflexivity.
  - repeat split.
    + intros t Ht. rewrite Ht. destruct st; reflexivity.
    + intros [Hm | Hm]; rewrite Hm; destruct st; reflexivity.
Qed.

Lemma completed_action_message_witness :
  message_textContent (exec (listener_of accepting (Signup "Chess Club")) sample_page)
  = "Done"
  /\ message_textContent
       (exec (listener_of terse (Unregister "Chess Club" "a@x.com")) sample_page)
     = "".
Proof.
  destruct (completed_action_message accepting sample_page (Signup "Chess Club") _ eq_refl)
    as (Hshown & _).
  destruct (completed_action_message terse sample_page
              (Unregister "Chess Club" "a@x.com") _ eq_refl)
    as (_ & Hempty & _).
  split.
  - apply Hshown. reflexivity.
  - apply Hempty. left. reflexivity.
Defined.

(** ** Further properties *)

(** *** Request addresses (lines 71-76 and 139-144) *)

Lemma hex_digit_unescaped (n : nat) : unescaped (hex_digit n) = true.
Proof.
  do 16 (destruct n as [| n]; [reflexivity |]). destruct n; reflexivity.
Qed.

Lemma hex_digit_injective (i j : nat) :
  i < 16 -> j < 16 -> hex_digit i = hex_digit j -> i = j.
Proof.
  intros Hi Hj.
  do 16 (destruct i as [| i]; [do 16 (destruct j as [| j];
           [first [reflexivity | discriminate] |]); lia |]).
  lia.
Qed.

(** Every character [encodeURIComponent] puts out is an unescaped one or
    the percent sign. *)
Lemma encodeURIComponent_alphabet (s : string) (c : ascii) :
  In c (list_ascii_of_string (encodeURIComponent s)) ->
  unescaped c = true \/ c = "%"%char.
Proof.
  induction s as [| a s IH]; cbn [encodeURIComponent list_ascii_of_string].
  - intros [].
  - destruct (unescaped a) eqn:Ha; cbn [list_ascii_of_string In].
    + intros [<- | H]; [left; exact Ha | exact (IH H)].
    + intros [<- | [<- | [<- | H]]].
      * right. reflexivity.
      * left. apply hex_digit_unescaped.
      * left. apply hex_digit_unescaped.
      * exact (IH H).
Qed.

Lemma encodeURIComponent_injective (s t : string) :
  encodeURIComponent s = encodeURIComponent t -> s = t.
Proof.
  revert t. induction s as [| a s IH]; intros [| b t];
    cbn [encodeURIComponent].
  - reflexivity.
  - destruct (unescaped b); discriminate.
  - destruct (unescaped a); discriminate.
  - destruct (unescaped a) eqn:Ha, (unescaped b) eqn:Hb; intros H.
    + injection H as -> H. f_equal. exact (IH t H).
    + injection H as -> _. discriminate Ha.
    + injection H as <- _. discriminate Hb.
    + cbv zeta in H.
      pose proof (nat_ascii_bounded a) as Ba.
      pose proof (nat_ascii_bounded b) as Bb.
      pose proof (Nat.div_mod_eq (nat_of_ascii a) 16) as Ea.
      pose proof (Nat.div_mod_eq (nat_of_ascii b) 16) as Eb.
      assert (Hha : nat_of_ascii a / 16 < 16)
        by (apply Nat.Div0.div_lt_upper_bound; lia).
      assert (Hhb : nat_of_ascii b / 16 < 16)
        by (apply Nat.Div0.div_lt_upper_bound; lia).
      assert (Hla : nat_of_ascii a mod 16 < 16)
        by (apply Nat.mod_upper_bound; lia).
      assert (Hlb : nat_of_ascii b mod 16 < 16)
        by (apply Nat.mod_upper_bound; lia).
      remember (nat_of_ascii a / 16) as ha.
      remember (nat_of_ascii b / 16) as hb.
      remember (nat_of_ascii a mod 16) as la.
      remember (nat_of_ascii b mod 16) as lb.
      injection H as Hhi Hlo H.
      apply hex_digit_injective in Hhi; [| assumption | assumption].
      apply hex_digit_injective in Hlo; [| assumption | assumption].
      assert (Hab : a = b).
      { rewrite <- (ascii_nat_embedding a), <- (ascii_nat_embedding b).
        f_equal. lia. }
      subst b. f_equal. exact (IH t H).
Qed.

(** Two strings that hold no [d] and are each followed by [d] split a
    common whole at the same place. *)
Lemma split_at_delimiter (d : ascii) (a b x y : string) :
  ~ In d (list_ascii_of_string a) ->
  ~ In d (list_ascii_of_string b) ->
  (a ++ String d x = b ++ String d y)%string ->
  a = b /\ x = y.
Proof.
  revert b. induction a as [| c a IH]; intros [| e b] Ha Hb H; cbn in *.
  - injection H as ->. split; reflexivity.
  - injection H as -> _. exfalso. apply Hb. left. reflexivity.
  - injection H as -> _. exfalso. apply Ha. left. reflexivity.
  - injection H as -> H.
    destruct (IH b) as [-> ->]; [tauto | tauto | exact H |].
    split; reflexivity.
Qed.

Lemma encodeURIComponent_no_slash (s : string) :
  ~ In "/"%char (list_ascii_of_string (encodeURIComponent s)).
Proof.
  intros H. destruct (encodeURIComponent_alphabet s _ H) as [H' | H'];
    discriminate H'.
Qed.

Lemma url_with_two_parts (prefix : string) (middle : string) (a b x y : string) :
  (prefix ++ encodeURIComponent a ++ String "/" (middle ++ encodeURIComponent x)
   = prefix ++ encodeURIComponent b ++ String "/" (middle ++ encodeURIComponent y))%string ->
  a = b /\ x = y.
Proof.
  intros H.
  assert (Hstrip : forall (p u v : string), (p ++ u = p ++ v)%string -> u = v).
  { induction p as [| c p IHp]; cbn; intros u v Huv; [exact Huv |].
    injection Huv as Huv. exact (IHp _ _ Huv). }
  apply Hstrip in H.
  apply split_at_delimiter in H; try apply encodeURIComponent_no_slash.
  destruct H as [Ha Hx]. apply Hstrip in Hx.
  split; apply encodeURIComponent_injective; assumption.
Qed.


(** X2. A request tells which activity and which email it is for: two
    unregister requests with the same address are for the same activity and
    participant, and two signup requests with the same address are for the
    same activity and email. *)
Theorem requests_address_their_targets :
  (forall n1 p1 n2 p2,
      unregister_request n1 p1 = unregister_request n2 p2 -> n1 = n2 /\ p1 = p2)
  /\ (forall a1 e1 a2 e2,
         signup_request a1 e1 = signup_request a2 e2 -> a1 = a2 /\ e1 = e2).
Proof.
  split; intros a x b y H; injection H as H.
  - exact (url_with_two_parts "" "unregister?email=" a b x y H).
  - exact (url_with_two_parts "" "signup?email=" a b x y H).
Qed.

Lemma requests_address_their_targets_witness :
  ("Chess Club" = "Chess Club" /\ "a@x.com" = "a@x.com")
  /\ ("Art Club" = "Art Club" /\ "b@x.com" = "b@x.com").
Proof.
  split.
  - exact (proj1 requests_address_their_targets
             "Chess Club" "a@x.com" "Chess Club" "a@x.com" eq_refl).
  - exact (proj2 requests_address_their_targets
             "Art Club" "b@x.com" "Art Club" "b@x.com" eq_refl).
Defined.

(** *** Rendering (lines 13-124) *)

Lemma activityCard_shape (name : string) (details : Details) (ps : list string) :
  participants details = Present ps ->
  activityCard name details
  = Normal (Element "div" "activity-card" "" "" None
              [Markup (basic_info name details
                         (minus (ToNumber (max_participants details)) (List.length ps)));
               Element "p" "" "" "" None [Markup "<strong>Participants:</strong>"];
               participantsList name details]).
Proof.
  intros Hps. unfold activityCard. rewrite (spotsLeft_present _ _ Hps).
  cbn [createElement set_className set_innerHTML appendChild].
  remember (basic_info name details _) as html eqn:Hhtml.
  assert (Hne : parsed_nodes html = [Markup html]).
  { subst html. unfold basic_info, newline. reflexivity. }
  rewrite Hne. reflexivity.
Qed.

Lemma activityCard_throws (name : string) (details : Details) (e : Exception) :
  activityCard name details = Throw e ->
  e = TypeError /\ ~ has_participants (name, details).
Proof.
  intros Hthrow. destruct (participants details) as [| | ps] eqn:Hps.
  - unfold activityCard, spotsLeft in Hthrow. rewrite Hps in Hthrow.
    cbn in Hthrow. injection Hthrow as <-. split; [reflexivity |].
    intros [qs Hqs]. cbn in Hqs. congruence.
  - unfold activityCard, spotsLeft in Hthrow. rewrite Hps in Hthrow.
    cbn in Hthrow. injection Hthrow as <-. split; [reflexivity |].
    intros [qs Hqs]. cbn in Hqs. congruence.
  - rewrite (activityCard_shape _ _ _ Hps) in Hthrow. discriminate Hthrow.
Qed.

Lemma activityCard_without_participants (name : string) (details : Details) :
  ~ has_participants (name, details) -> activityCard name details = Throw TypeError.
Proof.
  intros Hnone. destruct (activityCard name details) as [card | e] eqn:Hcard.
  - exfalso. apply Hnone. destruct (participants details) as [| | ps] eqn:Hps.
    + unfold activityCard, spotsLeft in Hcard. rewrite Hps in Hcard. discriminate Hcard.
    + unfold activityCard, spotsLeft in Hcard. rewrite Hps in Hcard. discriminate Hcard.
    + exists ps. exact Hps.
  - destruct (activityCard_throws _ _ _ Hcard) as [-> _]. reflexivity.
Qed.

(** The loop draws the entries up to the first one without participants. *)
Lemma forEach_render_entry_run (activities : Activities) :
  exists (n : nat) (cards : list Node) (c : Completion unit),
    Forall2 card_of (firstn n activities) cards
    /\ match c with
       | Normal _ => n = List.length activities
       | Throw e =>
           e = TypeError
           /\ exists entry, nth_error activities n = Some entry
                            /\ ~ has_participants entry
       end
    /\ forall st,
        forEach activities render_entry st
        = (c, with_activitySelect
                (activitySelect st
                 ++ map (fun e => activityOption (fst e)) (firstn n activities))
                (with_activitiesList (activitiesList st ++ cards) st)).
Proof.
  induction activities as [| [name details] rest (n & cards & c & Hcards & Hc & IH)].
  - exists 0, [], (Normal tt). split; [constructor |]. split; [reflexivity |].
    intros st. destruct st; cbn. rewrite !app_nil_r. reflexivity.
  - destruct (activityCard name details) as [card | e] eqn:Hcard.
    + exists (S n), (card :: cards), c. split; [| split].
      * cbn [firstn]. constructor; [exact Hcard | exact Hcards].
      * destruct c as [u | e]; [cbn; f_equal; exact Hc | exact Hc].
      * intros st. cbn [forEach]. unfold bind at 1. unfold render_entry at 1.
        unfold bind at 1. unfold lift. rewrite Hcard.
        unfold bind, activitiesList_appendChild, activitySelect_appendChild, modify.
        rewrite IH. destruct st; cbn. rewrite <- !app_assoc. reflexivity.
    + exists 0, [], (Throw e). split; [constructor |]. split.
      * destruct (activityCard_throws _ _ _ Hcard) as [-> Hnone].
        split; [reflexivity |]. exists (name, details). split; [reflexivity | exact Hnone].
      * intros st. cbn [forEach]. unfold bind at 1. unfold render_entry at 1.
        unfold bind at 1. unfold lift. rewrite Hcard.
        destruct st; cbn. rewrite !app_nil_r. reflexivity.
Qed.

(** What a parsed response leaves: the list and the select are set from the
    response alone, the console gains at most one entry. *)
Lemma fetchActivities_resume_parsed (okf : bool) (activities : Activities) :
  exists (l : list Node) (names : list string) (c : list (string * Exception)),
  forall st,
    fetchActivities_resume (Resolved {| ok := okf; body := Some activities |}) st
    = (Normal tt,
       with_console (console st ++ c)
         (with_activitySelect (defaultOption :: map activityOption names)
            (with_activitiesList l st))).
Proof.
  destruct (forEach_render_entry_run activities) as (n & cards & c & _ & _ & Heq).
  destruct c as [[] | e].
  - exists cards, (map fst (firstn n activities)), []. intros st.
    unfold fetchActivities_resume, try_catch, bind, await, json, ret,
      activitiesList_set_innerHTML, activitySelect_set_innerHTML,
      activitySelect_appendChild, modify.
    cbn [body]. rewrite Heq. destruct st; cbn.
    rewrite app_nil_r, map_map. reflexivity.
  - exists [Markup failure_notice], (map fst (firstn n activities)),
      [("Error fetching activities:", e)].
    intros st.
    unfold fetchActivities_resume, try_catch, bind, await, json, ret,
      activitiesList_set_innerHTML, activitySelect_set_innerHTML,
      activitySelect_appendChild, modify.
    cbn [body]. rewrite Heq. destruct st; cbn. rewrite map_map. reflexivity.
Qed.

(** X3. A response that parses is drawn from scratch: the list and the
    select it leaves are the same on every page, so drawing the same
    response a second time changes neither, and no option is doubled.  This
    holds for malformed collections too. *)
Theorem parsed_response_is_drawn_from_scratch
        (okf : bool) (activities : Activities) (st1 st2 : State) :
  let draw := exec (fetchActivities_resume
                      (Resolved {| ok := okf; body := Some activities |})) in
  activitiesList (draw st1) = activitiesList (draw st2)
  /\ activitySelect (draw st1) = activitySelect (draw st2)
  /\ activitiesList (draw (draw st1)) = activitiesList (draw st1)
  /\ activitySelect (draw (draw st1)) = activitySelect (draw st1).
Proof.
  intros draw. subst draw. unfold exec.
  destruct (fetchActivities_resume_parsed okf activities) as (l & names & c & Heq).
  repeat (rewrite !Heq; cbn [snd]).
  destruct st1, st2; cbn. repeat split; reflexivity.
Qed.

Lemma forEach_app {A} (l1 l2 : list A) (f : A -> M unit) (st : State) :
  forEach (l1 ++ l2) f st
  = match forEach l1 f st with
    | (Normal _, st') => forEach l2 f st'
    | (Throw e, st') => (Throw e, st')
    end.
Proof.
  revert st. induction l1 as [| a l1 IH]; intros st; cbn [forEach app].
  - reflexivity.
  - unfold bind. destruct (f a st) as [[u | e] st']; [apply IH | reflexivity].
Qed.

(** X4. An entry without its participants array stops the drawing at line
    28: the catch block puts the failure notice in place of the cards drawn
    so far and logs a TypeError, while the select keeps the placeholder and
    the options of the entries before that one; the entries after it are
    not drawn. *)
Theorem entry_without_participants_stops_drawing
        (okf : bool) (drawn : Activities) (entry : string * Details)
        (rest : Activities) (st : State) :
  Forall has_participants drawn ->
  ~ has_participants entry ->
  let o := Resolved {| ok := okf; body := Some (drawn ++ entry :: rest) |} in
  let st' := exec (fetchActivities_resume o) st in
  completion (fetchActivities_resume o) st = Normal tt
  /\ activitiesList st' = [Markup failure_notice]
  /\ activitySelect st' = defaultOption :: map (fun e => activityOption (fst e)) drawn
  /\ console st' = console st ++ [("Error fetching activities:", TypeError)].
Proof.
  intros Hdrawn Hentry o st'.
  assert (Hrun : fetchActivities_resume o st
                 = (Normal tt,
                    with_console (console st ++ [("Error fetching activities:", TypeError)])
                      (with_activitySelect
                         (defaultOption :: map (fun e => activityOption (fst e)) drawn)
                         (with_activitiesList [Markup failure_notice] st)))).
  { subst o.
    unfold fetchActivities_resume, try_catch, bind, await, json, ret,
      activitiesList_set_innerHTML, activitySelect_set_innerHTML,
      activitySelect_appendChild, console_error, modify.
    cbn [body]. rewrite forEach_app.
    match goal with
    | |- context [forEach drawn render_entry ?s] =>
        destruct (forEach_render_entry drawn Hdrawn s) as (cards & _ & Hrun);
        rewrite Hrun
    end.
    destruct entry as [name details].
    cbn [forEach]. unfold bind at 1. unfold render_entry at 1.
    unfold bind at 1. unfold lift.
    rewrite (activityCard_without_participants name details Hentry).
    destruct st; reflexivity. }
  subst st'. unfold completion, exec. rewrite Hrun.
  destruct st; cbn. repeat split; reflexivity.
Qed.

Lemma entry_without_participants_stops_drawing_witness :
  let st' := exec (fetchActivities_resume
                     (Resolved {| ok := true;
                                  body := Some ([("Chess Club", chess_club)]
                                                ++ ("Unnamed", unnamed_club)
                                                   :: [("Art Club", art_club)]) |}))
               sample_page in
  activitiesList st' = [Markup failure_notice]
  /\ activitySelect st' = [defaultOption; activityOption "Chess Club"].
Proof.
  assert (Hdrawn : Forall has_participants [("Chess Club", chess_club)]).
  { repeat constructor. eexists. reflexivity. }
  assert (Hentry : ~ has_participants ("Unnamed", unnamed_club)).
  { intros [ps Hps]. discriminate Hps. }
  destruct (entry_without_participants_stops_drawing
              true [("Chess Club", chess_club)] ("Unnamed", unnamed_club)
              [("Art Club", art_club)] sample_page Hdrawn Hentry)
    as (_ & Hlist & Hselect & _).
  split; [exact Hlist | exact Hselect].
Defined.

Lemma flat_map_map_singleton {A B C} (f : B -> list C) (g : A -> B) (h : A -> list C)
      (l : list A) :
  (forall a, f (g a) = h a) -> flat_map f (map g l) = flat_map h l.
Proof.
  intros H. induction l as [| a l IH]; cbn; [reflexivity |].
  rewrite H, IH. reflexivity.
Qed.

Lemma participantItem_contents (name p : string) :
  markups (participantItem name p) = ["✕"%string]
  /\ texts (participantItem name p)
     = (if String.eqb p "" then [] else [p])
  /\ listeners (participantItem name p) = [UnregisterClick name p].
Proof.
  unfold participantItem, deleteBtn. cbn.
  destruct p as [| c p]; cbn; repeat split; reflexivity.
Qed.

Lemma participantsList_contents (name : string) (details : Details) (ps : list string) :
  participants details = Present ps ->
  markups (participantsList name details) = map (fun _ => "✕"%string) ps
  /\ texts (participantsList name details)
     = match ps with
       | [] => ["No participants yet"%string]
       | _ :: _ => filter (fun p => negb (String.eqb p "")) ps
       end
  /\ listeners (participantsList name details) = map (UnregisterClick name) ps.
Proof.
  intros Hps. rewrite (participantsList_children name details ps Hps).
  destruct ps as [| p0 ps]; [repeat split; reflexivity |].
  set (rows := p0 :: ps). cbn [markups texts listeners app].
  split; [| split].
  - rewrite (flat_map_map_singleton _ _ (fun _ => ["✕"%string])).
    + clear. induction rows as [| p rows IH]; cbn; [reflexivity | rewrite IH; reflexivity].
    + intros p. apply participantItem_contents.
  - rewrite (flat_map_map_singleton _ _ (fun p => if String.eqb p "" then [] else [p])).
    + clear. induction rows as [| p rows IH]; cbn; [reflexivity |].
      rewrite IH. destruct (String.eqb p ""); reflexivity.
    + intros p. apply participantItem_contents.
  - rewrite (flat_map_map_singleton _ _ (fun p => [UnregisterClick name p])).
    + clear. induction rows as [| p rows IH]; cbn; [reflexivity | rewrite IH; reflexivity].
    + intros p. apply participantItem_contents.
Qed.

(** X5. In a card, the participants reach the page through [textContent]
    only: the strings given to [innerHTML] are the template of lines 31-36,
    the header, and one cross per participant, and the text nodes are the
    participants that are not empty, or the placeholder text when there is
    none.  The activity name, description and schedule are in the template,
    which is parsed as markup. *)
Theorem participants_are_written_as_text
        (name : string) (details : Details) (ps : list string) (card : Node) :
  participants details = Present ps ->
  card_of (name, details) card ->
  markups card
  = basic_info name details (minus (ToNumber (max_participants details)) (List.length ps))
    :: "<strong>Participants:</strong>"%string
    :: map (fun _ => "✕"%string) ps
  /\ texts card
     = match ps with
       | [] => ["No participants yet"%string]
       | _ :: _ => filter (fun p => negb (String.eqb p "")) ps
       end.
Proof.
  intros Hps Hcard. unfold card_of in Hcard. cbn [fst snd] in Hcard.
  rewrite (activityCard_shape name details ps Hps) in Hcard.
  injection Hcard as <-.
  destruct (participantsList_contents name details ps Hps) as (Hm & Ht & _).
  cbn [markups texts flat_map app]. rewrite Hm, Ht, !app_nil_r.
  split; reflexivity.
Qed.

Lemma participants_are_written_as_text_witness :
  exists card,
    card_of ("Chess Club", chess_club) card
    /\ texts card = ["a@x.com"%string]
    /\ List.length (markups card) = 3.
Proof.
  destruct (activityCard "Chess Club" chess_club) as [card | e] eqn:Hcard;
    [| discriminate Hcard].
  exists card.
  destruct (participants_are_written_as_text "Chess Club" chess_club ["a@x.com"%string]
              card eq_refl Hcard) as [Hm Ht].
  split; [exact Hcard |]. split; [exact Ht | rewrite Hm; reflexivity].
Defined.

Lemma listeners_of_card (entry : string * Details) (card : Node) :
  card_of entry card ->
  listeners card = map (UnregisterClick (fst entry)) (participants_of (snd entry)).
Proof.
  destruct entry as [name details]. unfold card_of. cbn [fst snd]. intros Hcard.
  destruct (participants details) as [| | ps] eqn:Hps.
  - unfold activityCard, spotsLeft in Hcard. rewrite Hps in Hcard. discriminate Hcard.
  - unfold activityCard, spotsLeft in Hcard. rewrite Hps in Hcard. discriminate Hcard.
  - rewrite (activityCard_shape name details ps Hps) in Hcard. injection Hcard as <-.
    destruct (participantsList_contents name details ps Hps) as (_ & _ & Hl).
    cbn [listeners flat_map app]. rewrite Hl, app_nil_r.
    unfold participants_of. rewrite Hps. reflexivity.
Qed.

(** X6. After a collection is drawn, the click listeners on the page are,
    in order, one per participant of each activity, each closed over its own
    activity and participant: every button unregisters the participant it
    stands beside, and no listed participant lacks a button. *)
Theorem delete_buttons_match_participants
        (okf : bool) (activities : Activities) (st : State) :
  Forall has_participants activities ->
  let st' := exec (fetchActivities_resume
                     (Resolved {| ok := okf; body := Some activities |})) st in
  flat_map listeners (activitiesList st')
  = flat_map (fun e => map (UnregisterClick (fst e)) (participants_of (snd e)))
             activities.
Proof.
  intros Hwf st'. subst st'. unfold exec.
  destruct (fetchActivities_resume_renders okf activities st Hwf) as (cards & Hcards & Hrun).
  rewrite Hrun. cbn [snd].
  assert (Hlist : activitiesList
                    (with_activitySelect
                       (defaultOption :: map (fun e => activityOption (fst e)) activities)
                       (with_activitiesList cards st)) = cards)
    by (destruct st; reflexivity).
  rewrite Hlist. clear Hrun Hlist.
  induction Hcards as [| entry card rest cards' Hcard _ IH]; [reflexivity |].
  cbn [flat_map]. rewrite (listeners_of_card entry card Hcard).
  inversion Hwf; subst. rewrite IH by assumption. reflexivity.
Qed.

Lemma delete_buttons_match_participants_witness :
  flat_map listeners
    (activitiesList
       (exec (fetchActivities_resume (Resolved {| ok := true; body := Some directory |}))
          sample_page))
  = [UnregisterClick "Chess Club" "a@x.com"].
Proof.
  assert (Hwf : Forall has_participants directory).
  { repeat constructor; eexists; reflexivity. }
  exact (delete_buttons_match_participants true directory sample_page Hwf).
Defined.

(** *** The message box and its timers (lines 80-102 and 148-171) *)

Lemma classList_add_holds (token : string) (cl : list string) :
  existsb (String.eqb token) (classList_add token cl) = true.
Proof.
  unfold classList_add. destruct (existsb (String.eqb token) cl) eqn:Hin.
  - exact Hin.
  - rewrite existsb_app. cbn. rewrite String.eqb_refl, orb_true_r. reflexivity.
Qed.

(** What a timer does when it fires. *)
Lemma timer_fires_pending (i delay : nat) (callback : TimerCallback) (st : State) :
  nth_error (timers st) i = Some (delay, callback) ->
  timer_fires i st
  = (Normal tt,
     with_message_classList (classList_add "hidden" (message_classList st))
       (with_timers (firstn i (timers st) ++ skipn (S i) (timers st)) st)).
Proof.
  intros Hi. unfold timer_fires, bind, gets, modify. rewrite Hi.
  destruct callback. unfold run_callback, messageDiv_classList_add, modify.
  destruct st; reflexivity.
Qed.

(** An answered action appends its hide timer and shows its message. *)
Lemma answered_action_page (net : Network) (st : State) (a : Action) :
  transport_failed (answer net st a) = false ->
  let st' := exec (listener_of net a) st in
  timers st' = timers st ++ [(5000, HideMessage)]
  /\ message_visible st' = true.
Proof.
  intros Hanswered st'. subst st'.
  assert (Hcases : exists okf r, answer net st a = Resolved {| ok := okf; body := Some r |}).
  { destruct (answer net st a) as [| [okf [r |]]]; try discriminate Hanswered; eauto. }
  destruct Hcases as (okf & r & Hr). unfold exec. destruct okf.
  - rewrite (listener_completed net st a r Hr). cbn [snd].
    destruct a as [activity | name participant];
      destruct st; cbn; split; reflexivity.
  - rewrite (listener_rejected net st a r Hr). cbn [snd].
    destruct st; cbn. split; reflexivity.
Qed.

(** X8. Timers are not tied to the message that set them, and no listener
    cancels one.  When a second action is answered before the timer of a
    first one fires, that timer hides the message of the second action,
    whose text stays in place and whose own timer is still pending. *)
Theorem earlier_timer_hides_later_message
        (net : Network) (st : State) (a1 a2 : Action) :
  transport_failed (answer net st a1) = false ->
  let st1 := exec (listener_of net a1) st in
  transport_failed (answer net st1 a2) = false ->
  let st2 := exec (listener_of net a2) st1 in
  let st3 := exec (timer_fires (List.length (timers st))) st2 in
  message_visible st2 = true
  /\ message_visible st3 = false
  /\ message_textContent st3 = message_textContent st2
  /\ message_classList st3 = message_classList st2 ++ ["hidden"%string]
  /\ timers st3 = timers st ++ [(5000, HideMessage)].
Proof.
  intros H1 st1 H2 st2 st3.
  destruct (answered_action_page net st a1 H1) as [Ht1 _]. fold st1 in Ht1.
  destruct (answered_action_page net st1 a2 H2) as [Ht2 Hv2]. fold st2 in Ht2, Hv2.
  assert (Hnth : nth_error (timers st2) (List.length (timers st)) = Some (5000, HideMessage)).
  { rewrite Ht2, Ht1, <- app_assoc. cbn [app].
    rewrite nth_error_app2 by lia. rewrite Nat.sub_diag. reflexivity. }
  assert (Hrest : firstn (List.length (timers st)) (timers st2)
                  ++ skipn (S (List.length (timers st))) (timers st2)
                  = timers st ++ [(5000, HideMessage)]).
  { rewrite Ht2, Ht1, <- app_assoc. cbn [app].
    rewrite firstn_app, firstn_all, Nat.sub_diag. cbn [firstn].
    rewrite app_nil_r.
    replace (S (List.length (timers st)))
      with (List.length (timers st ++ [(5000, HideMessage)])) by apply length_snoc.
    change (timers st ++ [(5000, HideMessage); (5000, HideMessage)])
      with (timers st ++ [(5000, HideMessage)] ++ [(5000, HideMessage)]).
    rewrite app_assoc, skipn_app, skipn_all, Nat.sub_diag. reflexivity. }
  subst st3. unfold exec at 1 2 3 4. rewrite (timer_fires_pending _ _ _ _ Hnth). cbn [snd].
  split; [exact Hv2 |].
  assert (Hhidden : existsb (String.eqb "hidden") (message_classList st2) = false).
  { unfold message_visible in Hv2. destruct (existsb _ _); [discriminate Hv2 | reflexivity]. }
  repeat split.
  - unfold message_visible. cbn [message_classList with_message_classList].
    rewrite classList_add_holds. reflexivity.
  - cbn [message_classList with_message_classList]. unfold classList_add.
    rewrite Hhidden. reflexivity.
  - rewrite <- Hrest. reflexivity.
Qed.

Lemma earlier_timer_hides_later_message_witness :
  let st2 := exec (listener_of accepting (Unregister "Chess Club" "a@x.com"))
               (exec (listener_of rejecting (Signup "Chess Club")) sample_page) in
  message_textContent (exec (timer_fires 0) st2) = "Done"%string
  /\ message_visible (exec (timer_fires 0) st2) = false
  /\ timers (exec (timer_fires 0) st2) = [(5000, HideMessage)].
Proof.
  cbv zeta.
  destruct (earlier_timer_hides_later_message rejecting sample_page
              (Signup "Chess Club") (Unregister "Chess Club" "a@x.com")
              eq_refl eq_refl)
    as (_ & Hhidden & _ & _ & Htimers).
  split; [reflexivity |]. split; [exact Hhidden | exact Htimers].
Defined.


(** *** fetchActivities as a whole (lines 8-129) *)

(** X10. Whatever the server answers, malformed collections included,
    [fetchActivities] completes normally, sends the one list request, and
    leaves the message box, the email field, the timers and the pending
    loads as they were: it writes the list, the select and the console
    only. *)
Theorem fetchActivities_keeps_the_rest_of_the_page (net : Network) (st : State) :
  let st' := exec (fetchActivities net) st in
  completion (fetchActivities net) st = Normal tt
  /\ sent st' = sent st ++ [activities_request]
  /\ message_textContent st' = message_textContent st
  /\ message_classList st' = message_classList st
  /\ email_value st' = email_value st
  /\ email_defaultValue st' = email_defaultValue st
  /\ timers st' = timers st
  /\ in_flight st' = in_flight st.
Proof.
  intros st'. subst st'. unfold completion, exec, fetchActivities, bind, send.
  destruct (fetchActivities_resume_frame
              (list_endpoint net (List.length (sent st)) activities_request))
    as (l & s & c & Heq).
  rewrite Heq. destruct st; cbn. repeat split; reflexivity.
Qed.

(** *** The event loop (lines 1, 66, 132 and 175) *)

(** X11. When the document is loaded the script sends the list request and
    nothing on the page changes until the response arrives; once it has
    arrived, the page is the one an awaited [fetchActivities] leaves. *)
Theorem page_load_draws_the_activities (net : Network) (st : State) :
  let st1 := exec (handle net DOMContentLoaded) st in
  sent st1 = sent st ++ [activities_request]
  /\ in_flight st1
     = in_flight st ++ [list_endpoint net (List.length (sent st)) activities_request]
  /\ activitiesList st1 = activitiesList st
  /\ activitySelect st1 = activitySelect st
  /\ message_classList st1 = message_classList st
  /\ exec (handle net (LoadArrives (List.length (in_flight st)))) st1
     = exec (fetchActivities net) st.
Proof.
  intros st1. subst st1. cbn [handle].
  split; [| split; [| split; [| split; [| split]]]];
    try (destruct st; reflexivity).
  apply detached_load_arrives.
Qed.

Lemma handle_completes (net : Network) (ev : Event) (st : State) :
  fst (handle net ev st) = Normal tt.
Proof.
  destruct ev as [| activity | [name participant] | email | i | i]; cbn [handle].
  - reflexivity.
  - change (fst (listener_of net (Signup activity) st) = Normal tt).
    destruct (completed (answer net st (Signup activity))) eqn:Hdone.
    + destruct (completed_cases _ Hdone) as [r Hr].
      rewrite (listener_completed net st _ r Hr). reflexivity.
    + destruct (not_completed_cases _ Hdone) as [Htransport | [r Hr]].
      * destruct (listener_transport_failed net st _ Htransport) as (e & label & Hrun).
        rewrite Hrun. reflexivity.
      * rewrite (listener_rejected net st _ r Hr). reflexivity.
  - change (fst (listener_of net (Unregister name participant) st) = Normal tt).
    destruct (completed (answer net st (Unregister name participant))) eqn:Hdone.
    + destruct (completed_cases _ Hdone) as [r Hr].
      rewrite (listener_completed net st _ r Hr). reflexivity.
    + destruct (not_completed_cases _ Hdone) as [Htransport | [r Hr]].
      * destruct (listener_transport_failed net st _ Htransport) as (e & label & Hrun).
        rewrite Hrun. reflexivity.
      * rewrite (listener_rejected net st _ r Hr). reflexivity.
  - reflexivity.
  - unfold load_arrives, bind, gets, modify.
    destruct (nth_error (in_flight st) i) as [o |]; [| reflexivity].
    destruct (fetchActivities_resume_frame o) as (l & s & c & Heq).
    rewrite Heq. reflexivity.
  - unfold timer_fires, bind, gets, modify.
    destruct (nth_error (timers st) i) as [[delay []] |]; reflexivity.
Qed.

Lemma run_cons (net : Network) (ev : Event) (evs : list Event) (st : State) :
  run net (ev :: evs) st = run net evs (exec (handle net ev) st).
Proof.
  unfold run, exec. cbn [forEach]. unfold bind.
  pose proof (handle_completes net ev st) as Hok.
  destruct (handle net ev st) as [[u | e] st']; cbn in *; [reflexivity | discriminate Hok].
Qed.

(** X12. No sequence of events ends in an exception the script does not
    catch, whatever the server answers and in whatever order responses and
    timers come: every event is handled to its end. *)
Theorem no_event_ends_in_an_uncaught_exception
        (net : Network) (evs : list Event) (st : State) :
  completion (run net evs) st = Normal tt.
Proof.
  unfold completion. revert st.
  induction evs as [| ev evs IH]; intros st; [reflexivity |].
  rewrite run_cons. apply IH.
Qed.

Lemma handle_keeps_timers (net : Network) (ev : Event) (st : State) :
  (forall i, ev <> TimerFires i) ->
  exists new, timers (exec (handle net ev) st) = timers st ++ new.
Proof.
  intros Hev.
  assert (Hlistener : forall a,
             exists new, timers (exec (listener_of net a) st) = timers st ++ new).
  { intros a. unfold exec.
    destruct (completed (answer net st a)) eqn:Hdone.
    - destruct (completed_cases _ Hdone) as [r Hr].
      rewrite (listener_completed net st a r Hr). cbn [snd].
      exists [(5000, HideMessage)].
      destruct a as [activity | name participant]; destruct st; reflexivity.
    - destruct (not_completed_cases _ Hdone) as [Htransport | [r Hr]].
      + destruct (listener_transport_failed net st a Htransport) as (e & label & Hrun).
        rewrite Hrun. exists []. destruct st; cbn. rewrite app_nil_r. reflexivity.
      + rewrite (listener_rejected net st a r Hr).
        exists [(5000, HideMessage)]. destruct st; reflexivity. }
  destruct ev as [| activity | [name participant] | email | i | i].
  - exists []. destruct st; cbn. rewrite app_nil_r. reflexivity.
  - exact (Hlistener (Signup activity)).
  - exact (Hlistener (Unregister name participant)).
  - exists []. destruct st; cbn. rewrite app_nil_r. reflexivity.
  - exists []. rewrite app_nil_r. cbn [handle].
    unfold exec, load_arrives, bind, gets, modify.
    destruct (nth_error (in_flight st) i) as [o |]; [| reflexivity].
    destruct (fetchActivities_resume_frame o) as (l & s & c & Heq).
    rewrite Heq. destruct st; reflexivity.
  - exfalso. exact (Hev i eq_refl).
Qed.

(** X13. The script never cancels a timer: over any sequence of events in
    which no timer fires (page load, submits, clicks, typing, responses
    arriving) the pending timers stay pending, in order, and new ones are
    added after them. *)
Theorem pending_timers_are_never_cancelled
        (net : Network) (evs : list Event) (st : State) :
  Forall (fun ev => forall i, ev <> TimerFires i) evs ->
  exists new, timers (exec (run net evs) st) = timers st ++ new.
Proof.
  intros Hevs. revert st.
  induction Hevs as [| ev evs Hev _ IH]; intros st.
  - exists []. rewrite app_nil_r. reflexivity.
  - unfold exec. rewrite run_cons.
    destruct (handle_keeps_timers net ev st Hev) as [new1 H1].
    destruct (IH (exec (handle net ev) st)) as [new2 H2].
    unfold exec in H2 at 1. rewrite H2, H1, <- app_assoc.
    exists (new1 ++ new2). reflexivity.
Qed.

Lemma pending_timers_are_never_cancelled_witness :
  exists new,
    timers (exec (run rejecting [DOMContentLoaded; Submit "Chess Club"; LoadArrives 0;
                                 Click (UnregisterClick "Chess Club" "a@x.com")])
              sample_page)
    = timers sample_page ++ new.
Proof.
  apply (pending_timers_are_never_cancelled rejecting).
  repeat constructor; intros i; discriminate.
Defined.

Lemma fetchActivities_resume_select (o : Outcome Activities) (st : State) :
  activitySelect (exec (fetchActivities_resume o) st) = activitySelect st
  \/ placeholder_first (activitySelect (exec (fetchActivities_resume o) st)).
Proof.
  unfold exec. destruct (transport_failed o) eqn:Hfail.
  - left. destruct (fetchActivities_resume_failure o st Hfail) as [e He].
    rewrite He. destruct st; reflexivity.
  - right. destruct o as [| [okf [activities |]]]; try discriminate Hfail.
    destruct (fetchActivities_resume_parsed okf activities) as (l & names & c & Heq).
    rewrite Heq. exists names. destruct st; reflexivity.
Qed.

Lemma handle_select (net : Network) (ev : Event) (st : State) :
  activitySelect (exec (handle net ev) st) = activitySelect st
  \/ placeholder_first (activitySelect (exec (handle net ev) st)).
Proof.
  assert (Hlistener : forall a,
             activitySelect (exec (listener_of net a) st) = activitySelect st
             \/ placeholder_first (activitySelect (exec (listener_of net a) st))).
  { intros a. unfold exec.
    destruct (completed (answer net st a)) eqn:Hdone.
    - destruct (completed_cases _ Hdone) as [r Hr].
      rewrite (listener_completed net st a r Hr). cbn [snd].
      destruct a as [activity | name participant].
      + match goal with
        | |- context [exec (fetchActivities_resume ?o) ?s] =>
            destruct (fetchActivities_resume_select o s) as [Hsame | Hshape]
        end.
        * left. cbn [activitySelect with_timers with_message_classList].
          rewrite Hsame. destruct st; reflexivity.
        * right. cbn [activitySelect with_timers with_message_classList].
          exact Hshape.
      + left. destruct st; reflexivity.
    - destruct (not_completed_cases _ Hdone) as [Htransport | [r Hr]].
      + destruct (listener_transport_failed net st a Htransport) as (e & label & Hrun).
        rewrite Hrun. left. destruct st; reflexivity.
      + rewrite (listener_rejected net st a r Hr). left. destruct st; reflexivity. }
  destruct ev as [| activity | [name participant] | email | i | i].
  - left. destruct st; reflexivity.
  - exact (Hlistener (Signup activity)).
  - exact (Hlistener (Unregister name participant)).
  - left. destruct st; reflexivity.
  - cbn [handle]. unfold exec, load_arrives, bind, gets.
    destruct (nth_error (in_flight st) i) as [o |]; [| left; reflexivity].
    unfold modify.
    match goal with
    | |- context [fetchActivities_resume o ?s] =>
        destruct (fetchActivities_resume_select o s) as [Hsame | Hshape]
    end.
    + left. unfold exec in Hsame. rewrite Hsame. destruct st; reflexivity.
    + right. exact Hshape.
  - left. cbn [handle]. unfold exec, timer_fires, bind, gets, modify.
    destruct (nth_error (timers st) i) as [[delay []] |]; destruct st; reflexivity.
Qed.

(** X14. The select keeps its shape over every sequence of events: if it
    holds the placeholder first and then options of activities, it does so
    after any events, whatever the server answers; no event leaves it
    without the placeholder or with a second one. *)
Theorem select_keeps_placeholder_first
        (net : Network) (evs : list Event) (st : State) :
  placeholder_first (activitySelect st) ->
  placeholder_first (activitySelect (exec (run net evs) st)).
Proof.
  revert st. induction evs as [| ev evs IH]; intros st Hshape; [exact Hshape |].
  unfold exec. rewrite run_cons. apply IH.
  destruct (handle_select net ev st) as [Hsame | Hnew];
    [rewrite Hsame; exact Hshape | exact Hnew].
Qed.

Lemma select_keeps_placeholder_first_witness :
  placeholder_first
    (activitySelect
       (exec (run accepting [DOMContentLoaded; LoadArrives 0; Submit "Chess Club";
                             Click (UnregisterClick "Chess Club" "a@x.com");
                             LoadArrives 0; TimerFires 0])
          sample_page)).
Proof.
  apply (select_keeps_placeholder_first accepting).
  exists []. reflexivity.
Defined.

(** X15. Responses to list requests are drawn as they arrive, with no check
    of the order the requests went out in: of two pending loads whose
    responses parse, the page ends up showing the one that arrived last,
    even when it answers the earlier request. *)
Theorem last_response_to_arrive_is_shown
        (ok1 ok2 : bool) (first second : Activities) (rest : list (Outcome Activities))
        (st : State) :
  let o1 := Resolved {| ok := ok1; body := Some first |} in
  let o2 := Resolved {| ok := ok2; body := Some second |} in
  in_flight st = o1 :: o2 :: rest ->
  let in_order := exec (load_arrives 0) (exec (load_arrives 0) st) in
  let reversed := exec (load_arrives 0) (exec (load_arrives 1) st) in
  drawn_from o2 st in_order
  /\ drawn_from o1 st reversed
  /\ in_flight in_order = rest
  /\ in_flight reversed = rest.
Proof.
  intros o1 o2 Hin in_order reversed. subst in_order reversed.
  destruct (fetchActivities_resume_parsed ok1 first) as (l1 & names1 & c1 & Heq1).
  destruct (fetchActivities_resume_parsed ok2 second) as (l2 & names2 & c2 & Heq2).
  fold o1 in Heq1. fold o2 in Heq2.
  assert (Hfirst0 : exec (load_arrives 0) st
                    = snd (fetchActivities_resume o1 (with_in_flight (o2 :: rest) st))).
  { unfold exec, load_arrives, bind, gets, modify. rewrite Hin. reflexivity. }
  assert (Hfirst1 : exec (load_arrives 1) st
                    = snd (fetchActivities_resume o2 (with_in_flight (o1 :: rest) st))).
  { unfold exec, load_arrives, bind, gets, modify. rewrite Hin. reflexivity. }
  rewrite Hfirst0, Hfirst1, Heq1, Heq2. cbn [snd].
  unfold drawn_from, exec, load_arrives, bind, gets, modify.
  cbn [in_flight with_console with_activitySelect with_activitiesList with_in_flight
       nth_error firstn skipn app].
  rewrite !Heq1, !Heq2. destruct st; cbn. repeat split; reflexivity.
Qed.

Lemma last_response_to_arrive_is_shown_witness :
  let st := exec (run accepting [Submit "Art Club"; Input "b@x.com";
                                 Click (UnregisterClick "Chess Club" "a@x.com");
                                 Click (UnregisterClick "Chess Club" "b@x.com")])
              sample_page in
  in_flight (exec (load_arrives 0) (exec (load_arrives 1) st)) = [].
Proof.
  cbv zeta.
  destruct (last_response_to_arrive_is_shown true true directory directory []
              (exec (run accepting [Submit "Art Club"; Input "b@x.com";
                                    Click (UnregisterClick "Chess Club" "a@x.com");
                                    Click (UnregisterClick "Chess Club" "b@x.com")])
                 sample_page)
              eq_refl)
    as (_ & _ & _ & Hrest).
  exact Hrest.
Defined.

Lemma answered_action_sets_hide_timer_witness :
  let st' := exec (listener_of rejecting (Signup "Chess Club")) sample_page in
  timers st' = [(5000, HideMessage)]
  /\ message_visible st' = true
  /\ message_visible (exec (timer_fires 0) st') = false.
Proof.
  exact (answered_action_sets_hide_timer rejecting sample_page (Signup "Chess Club") eq_refl).
Defined.

(** *** Missing fields (line 28 and lines 31-36) *)

(** X16. An entry is drawn exactly when it has its participants array:
    with the array the card is built whatever else is missing; without it
    (missing or null) line 28 throws a TypeError and no card is built. *)
Theorem entry_is_drawn_iff_it_has_participants (name : string) (details : Details) :
  ((exists card, activityCard name details = Normal card)
   <-> has_participants (name, details))
  /\ (activityCard name details = Throw TypeError
      <-> ~ has_participants (name, details)).
Proof.
  split; split.
  - intros [card Hcard]. destruct (participants details) as [| | ps] eqn:Hps.
    + unfold activityCard, spotsLeft in Hcard. rewrite Hps in Hcard. discriminate Hcard.
    + unfold activityCard, spotsLeft in Hcard. rewrite Hps in Hcard. discriminate Hcard.
    + exists ps. exact Hps.
  - intros [ps Hps]. cbn [snd] in Hps. eexists. apply (activityCard_shape _ _ _ Hps).
  - intros Hthrow. exact (proj2 (activityCard_throws _ _ _ Hthrow)).
  - apply activityCard_without_participants.
Qed.

Lemma entry_is_drawn_iff_it_has_participants_witness :
  (exists card, activityCard "Art Club" art_club = Normal card)
  /\ activityCard "Unnamed" unnamed_club = Throw TypeError.
Proof.
  split.
  - apply (proj1 (entry_is_drawn_iff_it_has_participants "Art Club" art_club)).
    exists []. reflexivity.
  - apply (proj2 (entry_is_drawn_iff_it_has_participants "Unnamed" unnamed_club)).
    intros [ps Hps]. discriminate Hps.
Defined.

(** X17. The capacity of an activity without [max_participants]: when the
    field is missing the subtraction gives NaN and the card reads "NaN spots
    left"; when it is null it counts as zero, and the capacity shown is
    minus the number of participants. *)
Theorem capacity_without_max_participants
        (name : string) (details : Details) (ps : list string) :
  participants details = Present ps ->
  (max_participants details = Absent ->
   spotsLeft details = Normal NaN
   /\ exists before after,
        basic_info name details NaN
        = (before ++ "<p><strong>Availability:</strong> NaN spots left</p>" ++ after)%string)
  /\ (max_participants details = Null ->
      spotsLeft details = Normal (Int (- Z.of_nat (List.length ps)))).
Proof.
  intros Hps. split; intros Hmax.
  - split.
    + rewrite (spotsLeft_present _ _ Hps), Hmax. reflexivity.
    + exists (newline ++ "          <h4>" ++ name ++ "</h4>" ++ newline
              ++ "          <p>" ++ ToString (description details) ++ "</p>" ++ newline
              ++ "          <p><strong>Schedule:</strong> " ++ ToString (schedule details)
              ++ "</p>" ++ newline ++ "          ")%string,
        (newline ++ "        ")%string.
      unfold basic_info, Number_toString. rewrite !append_assoc. reflexivity.
  - rewrite (spotsLeft_present _ _ Hps), Hmax. reflexivity.
Qed.

Lemma capacity_without_max_participants_witness :
  spotsLeft {| description := Absent; schedule := Absent;
               max_participants := Absent; participants := Present ["a@x.com"%string] |}
  = Normal NaN
  /\ spotsLeft {| description := Absent; schedule := Absent;
                  max_participants := Null;
                  participants := Present ["a@x.com"%string; "b@x.com"%string] |}
     = Normal (Int (-2)).
Proof.
  split.
  - exact (proj1 (proj1 (capacity_without_max_participants "Chess Club"
                           {| description := Absent; schedule := Absent;
                              max_participants := Absent;
                              participants := Present ["a@x.com"%string] |}
                           ["a@x.com"%string] eq_refl) eq_refl)).
  - exact (proj2 (capacity_without_max_participants "Chess Club"
                    {| description := Absent; schedule := Absent;
                       max_participants := Null;
                       participants := Present ["a@x.com"%string; "b@x.com"%string] |}
                    ["a@x.com"%string; "b@x.com"%string] eq_refl) eq_refl).
Defined.
